(** * PMM4RPAAI: ranking activities by automation potential

    A shallow embedding of the three scripts of the repository

    - [total_rework_cost.py]      (module [Rework], configuration [cost_cfg])
    - [total_rework_duration.py]  (module [Rework], configuration [hours_cfg])
    - [total_time_reduction.py]   (module [TimeReduction])

    The first two files are the same program up to the accepted names of
    the metric column and the wording of the messages, so they are
    embedded once, over a configuration record.

    Numbers.  Python's [float] is embedded as the rationals [Q] with exact
    arithmetic: the properties below are about the control flow of the
    parser, of the ranking and of the selection walk, none about rounding.
    Equality of numbers is [Qeq], written [==].  The spellings [inf] and
    [nan], which denote no rational, are outside the input domain.

    Text.  A Python [str] is embedded as a [string] whose characters are
    the code points of the text: the model covers the texts whose code
    points are below 256. *)

From Stdlib Require Import List String Ascii Bool Arith ZArith QArith Lqa Lia.
From Stdlib Require Import Sorting.Permutation Sorting.Sorted.
Import ListNotations.

Local Open Scope string_scope.
Local Open Scope list_scope.
Local Open Scope Q_scope.

(** ** Python values and exceptions *)

Inductive exn : Type :=
| ValueError.

Inductive result (A : Type) : Type :=
| Ok (a : A)
| Raise (e : exn).
Arguments Ok {A} a.
Arguments Raise {A} e.

Definition bind {A B : Type} (r : result A) (k : A -> result B) : result B :=
  match r with
  | Ok a => k a
  | Raise e => Raise e
  end.

Notation "x <- r ;; k" := (bind r (fun x => k))
  (at level 61, r at next level, right associativity).

(** [mapM f l] is the list comprehension [[f(x) for x in l]], and what
    [Series.apply(f)] does: the first exception raised by [f] escapes. *)
Fixpoint mapM {A B : Type} (f : A -> result B) (l : list A) : result (list B) :=
  match l with
  | [] => Ok []
  | x :: l' => y <- f x ;; ys <- mapM f l' ;; Ok (y :: ys)
  end.

(** A cell of a pandas column read from a CSV file: the missing marker
    (an empty field), a number, or text. *)
Inductive cell : Type :=
| NaN
| Num (q : Q)
| Str (s : string).

(** [pd.isna(x)] on a scalar. *)
Definition isna (x : cell) : bool :=
  match x with
  | NaN => true
  | _ => false
  end.

(** ** Numbers: comparisons, [min] and [max] as Python evaluates them *)

Definition Qltb (x y : Q) : bool := negb (Qle_bool y x).
Definition Qgtb (x y : Q) : bool := Qltb y x.
Definition Qleb (x y : Q) : bool := Qle_bool x y.
Definition Qgeb (x y : Q) : bool := Qle_bool y x.

(** [min(a, b)] returns [b] when [b < a], else [a]; [max(a, b)] returns
    [b] when [b > a], else [a]. *)
Definition py_min (a b : Q) : Q := if Qltb b a then b else a.
Definition py_max (a b : Q) : Q := if Qgtb b a then b else a.

(** ** Strings: [str.strip], [str.lower], [in], [str.replace] *)

(** The characters [str.strip] removes: tab to carriage return, the four
    separators 28 to 31, the space, next line (133) and the no-break
    space (160). *)
Definition is_space (c : ascii) : bool :=
  let n := nat_of_ascii c in
  ((9 <=? n) && (n <=? 13) || (28 <=? n) && (n <=? 32)
   || (n =? 133) || (n =? 160))%nat.

Definition is_digit (c : ascii) : bool :=
  let n := nat_of_ascii c in ((48 <=? n) && (n <=? 57))%nat.

Definition is_sign (c : ascii) : bool :=
  Ascii.eqb c "-" || Ascii.eqb c "+".

Definition is_dot (c : ascii) : bool := Ascii.eqb c ".".

Fixpoint lstrip (s : list ascii) : list ascii :=
  match s with
  | c :: s' => if is_space c then lstrip s' else s
  | [] => []
  end.

Definition strip_chars (s : list ascii) : list ascii :=
  rev (lstrip (rev (lstrip s))).

Definition strip (s : string) : string :=
  string_of_list_ascii (strip_chars (list_ascii_of_string s)).

(** [str.lower] on one character: the capital letters are A to Z and,
    above 127, the codes 192 to 222 but for the multiplication sign
    (215). *)
Definition lower_char (c : ascii) : ascii :=
  let n := nat_of_ascii c in
  if ((65 <=? n) && (n <=? 90)
      || (192 <=? n) && (n <=? 222) && negb (n =? 215))%nat
  then ascii_of_nat (n + 32) else c.

Definition lower (s : string) : string :=
  string_of_list_ascii (map lower_char (list_ascii_of_string s)).

(** ["%" in s] *)
Definition has_percent (s : list ascii) : bool :=
  existsb (Ascii.eqb "%") s.

(** [s.replace("%", "")] *)
Definition drop_percent (s : list ascii) : list ascii :=
  filter (fun c => negb (Ascii.eqb "%" c)) s.

(** ** [float(text)] and the numeric parser of pandas

    The decimal grammar of Python's [float]: surrounding white space, an
    optional sign, digits with an optional point (at least one digit on
    one side of it), an optional exponent.  [float] lets single
    underscores separate digits ([us = true]); [pd.to_numeric] does not
    ([us = false]). *)

(** The white space a number may stand in.  Both readers skip tab to
    carriage return and the space, and neither skips the separators 28 to
    31 that [str.strip] removes; [float] also skips next line and the
    no-break space, which [pd.to_numeric] does not. *)
Definition is_blank (us : bool) (c : ascii) : bool :=
  let n := nat_of_ascii c in
  ((9 <=? n) && (n <=? 13) || (n =? 32)
   || us && ((n =? 133) || (n =? 160)))%nat.

Fixpoint skip_blanks (us : bool) (s : list ascii) : list ascii :=
  match s with
  | c :: s' => if is_blank us c then skip_blanks us s' else s
  | [] => []
  end.

Definition trim (us : bool) (s : list ascii) : list ascii :=
  rev (skip_blanks us (rev (skip_blanks us s))).

Definition digit_val (c : ascii) : Z := Z.of_nat (nat_of_ascii c - 48).

(** The digits that continue a digit run, with what follows the run. *)
Fixpoint digits_tail (us : bool) (s : list ascii) : list Z * list ascii :=
  match s with
  | c :: s' =>
      if is_digit c then
        let '(ds, r) := digits_tail us s' in (digit_val c :: ds, r)
      else if us && Ascii.eqb c "_" then
        match s' with
        | d :: s'' =>
            if is_digit d then
              let '(ds, r) := digits_tail us s'' in (digit_val d :: ds, r)
            else ([], s)
        | [] => ([], s)
        end
      else ([], s)
  | [] => ([], [])
  end.

(** A digit run: empty when [s] does not start with a digit. *)
Definition digitpart (us : bool) (s : list ascii) : list Z * list ascii :=
  match s with
  | c :: s' =>
      if is_digit c then
        let '(ds, r) := digits_tail us s' in (digit_val c :: ds, r)
      else ([], s)
  | [] => ([], [])
  end.

Definition digits_value (ds : list Z) : Z :=
  fold_left (fun a d => 10 * a + d)%Z ds 0%Z.

Definition split_sign (s : list ascii) : bool * list ascii :=
  match s with
  | c :: s' =>
      if Ascii.eqb c "-" then (true, s')
      else if Ascii.eqb c "+" then (false, s')
      else (false, s)
  | [] => (false, [])
  end.

(** The exponent part: [Some (e, rest)], with [e = 0] when there is none;
    [None] when an [e] is followed by no digits. *)
Definition exponent (us : bool) (s : list ascii) : option (Z * list ascii) :=
  match s with
  | c :: s' =>
      if Ascii.eqb c "e" || Ascii.eqb c "E" then
        let '(neg, s1) := split_sign s' in
        match digitpart us s1 with
        | ([], _) => None
        | (ds, r) =>
            let e := digits_value ds in
            Some (if neg then (- e)%Z else e, r)
        end
      else Some (0%Z, s)
  | [] => Some (0%Z, [])
  end.

(** [m * 10 ^ e] as a rational. *)
Definition scale10 (m e : Z) : Q :=
  match e with
  | Zneg p => Qmake m (Pos.pow 10 p)
  | _ => inject_Z (m * 10 ^ e)
  end.

(** The digits, point and exponent that follow the sign. *)
Definition unsigned_decimal (us : bool) (s1 : list ascii) : option Q :=
  let '(ip, s2) := digitpart us s1 in
  let '(fp, s3) :=
    match s2 with
    | c :: s2' => if is_dot c then digitpart us s2' else ([], s2)
    | [] => ([], [])
    end in
  match ip ++ fp with
  | [] => None
  | ds =>
      match exponent us s3 with
      | Some (e, []) =>
          Some (scale10 (digits_value ds) (e - Z.of_nat (List.length fp)))
      | _ => None
      end
  end.

Definition decimal (us : bool) (text : list ascii) : option Q :=
  let '(neg, s1) := split_sign (trim us text) in
  match unsigned_decimal us s1 with
  | Some v => Some (if neg then - v else v)
  | None => None
  end.

(** [float(text)]: [ValueError] on text that is no number.  (The texts
    [inf], [infinity] and [nan], which [float] reads too, are not in the
    domain of the model.) *)
Definition py_float (text : list ascii) : result Q :=
  match decimal true text with
  | Some v => Ok v
  | None => Raise ValueError
  end.

(** [pd.to_numeric(column, errors="coerce")] on one cell: what is no
    number becomes the missing marker, here [None]. *)
Definition to_numeric_coerce (x : cell) : option Q :=
  match x with
  | NaN => None
  | Num q => Some q
  | Str s => decimal false (list_ascii_of_string s)
  end.

(** [.fillna(d)] on one cell. *)
Definition fillna (d : Q) (x : option Q) : Q :=
  match x with
  | Some q => q
  | None => d
  end.

(** ** [re.search]

    A pattern is a sequence of character classes, each with a quantifier.
    [re_match] is the backtracking matcher anchored at the head of the
    text: greedy quantifiers, the first success wins, the matched text is
    returned.  [re_search] tries each start position from the left. *)

Inductive quant : Type := One | Opt | Star | Plus.

Definition pattern : Type := list ((ascii -> bool) * quant).

(** A greedy run of [cls], then the rest of the pattern [k]; one
    character is given back at a time while [k] fails. *)
Fixpoint re_star (cls : ascii -> bool)
         (k : list ascii -> option (list ascii)) (s : list ascii)
  : option (list ascii) :=
  match s with
  | c :: s' =>
      if cls c then
        match re_star cls k s' with
        | Some m => Some (c :: m)
        | None => k s
        end
      else k s
  | [] => k []
  end.

Fixpoint re_match (re : pattern) (s : list ascii) {struct re}
  : option (list ascii) :=
  match re with
  | [] => Some []
  | (cls, q) :: re' =>
      match q with
      | One =>
          match s with
          | c :: s' =>
              if cls c then option_map (cons c) (re_match re' s') else None
          | [] => None
          end
      | Opt =>
          match s with
          | c :: s' =>
              if cls c then
                match re_match re' s' with
                | Some m => Some (c :: m)
                | None => re_match re' s
                end
              else re_match re' s
          | [] => re_match re' []
          end
      | Star => re_star cls (re_match re') s
      | Plus =>
          match s with
          | c :: s' =>
              if cls c then option_map (cons c) (re_star cls (re_match re') s')
              else None
          | [] => None
          end
      end
  end.

Fixpoint re_search (re : pattern) (s : list ascii) : option (list ascii) :=
  match re_match re s with
  | Some m => Some m
  | None =>
      match s with
      | [] => None
      | _ :: s' => re_search re s'
      end
  end.

(** [r"[-+]?\d*\.?\d+"] *)
Definition rate_pattern : pattern :=
  [(is_sign, Opt); (is_digit, Star); (is_dot, Opt); (is_digit, Plus)].


(** ** The table and the ranked rows *)

(** A [DataFrame] as [pd.read_csv] returns it: the header, and one list of
    cells per line, in the order of the header. *)
Record DataFrame : Type := {
  columns : list string;
  rows : list (list cell)
}.

Fixpoint index_of (name : string) (cols : list string) : option nat :=
  match cols with
  | [] => None
  | c :: cols' =>
      if String.eqb c name then Some 0%nat
      else option_map S (index_of name cols')
  end.

(** The cell of [row] in the column labelled [name]. *)
Definition at_col (cols : list string) (name : string) (row : list cell)
  : cell :=
  match index_of name cols with
  | Some i => nth i row NaN
  | None => NaN
  end.

(** A line of the working table: the activity, its metric value, its
    automation rate as a fraction, and the reducible amount (the columns
    [reducible_rework_cost], [reducible_rework_hours],
    [potential_savings]). *)
Record Row : Type := {
  activity : cell;
  metric : Q;
  rate : Q;
  reducible : Q
}.

(** A line of the working table before its reducible amount is computed:
    activity, metric value, rate. *)
Definition Work : Type := (cell * Q * Q)%type.

Definition work_metric (w : Work) : Q := snd (fst w).

(** The new column: [work[reducible] = work[metric] * work[rate]]. *)
Definition with_reducible (w : Work) : Row :=
  let '(a, m, r) := w in
  {| activity := a; metric := m; rate := r; reducible := m * r |}.

(** [Series.sum()] *)
Definition sum (l : list Q) : Q := fold_left Qplus l 0.

(** What a run reports once it has ranked and selected. *)
Record Report : Type := {
  total : Q;
  target : Q;
  ranked : list Row;
  selected : list Row;
  cum : Q;
  achieved_pct : option Q
}.

(** The ways a run ends. *)
Inductive Outcome : Type :=
| MissingColumns (missing : list string) (found : list string)
| NothingToReduce (message : string)
| Ranked (rep : Report)
| Uncaught (e : exn).

(** ** Ranking: [sort_values] on several keys, all descending

    On more than one key pandas sorts through a stable lexicographic
    sort: rows that tie on every key keep the order of the table. *)

(** [before by_ a b]: [a] sorts strictly before [b]. *)
Fixpoint before (by_ : list (Row -> Q)) (a b : Row) : bool :=
  match by_ with
  | [] => false
  | k :: ks =>
      if Qgtb (k a) (k b) then true
      else if Qeq_bool (k a) (k b) then before ks a b
      else false
  end.

Fixpoint insert (by_ : list (Row -> Q)) (x : Row) (l : list Row) : list Row :=
  match l with
  | [] => [x]
  | y :: l' => if before by_ y x then y :: insert by_ x l' else x :: l
  end.

Definition sort_values (by_ : list (Row -> Q)) (table : list Row) : list Row :=
  fold_right (insert by_) [] table.

(** ** Selection: the walk over the ranked rows

    [for _, row in ranked.iterrows()] with its two accumulators; [stop]
    is the test that ends the walk, evaluated on the running total after
    a row has been appended. *)
Fixpoint select_walk (stop : Q -> bool) (ranked : list Row)
         (selected : list Row) (cum : Q) : list Row * Q :=
  match ranked with
  | [] => (selected, cum)
  | row :: rest =>
      if Qleb (reducible row) 0 then select_walk stop rest selected cum
      else
        let selected := selected ++ [row] in
        let cum := cum + reducible row in
        if stop cum then (selected, cum)
        else select_walk stop rest selected cum
  end.

(** ** [total_rework_cost.py] and [total_rework_duration.py] *)

Module Rework.

(** What differs between the two files: the accepted names of the metric
    column, its name in the report of missing columns, and the message
    printed when the total is not positive. *)
Record config : Type := {
  metric_candidates : list string;
  metric_name : string;
  zero_message : string
}.

Definition cost_cfg : config := {|
  metric_candidates :=
    ["total rework cost"; "rework_cost"; "rework cost"; "total_rework_cost"];
  metric_name := "Total rework cost";
  zero_message := "Total rework cost is 0. Nothing to reduce."
|}.

Definition hours_cfg : config := {|
  metric_candidates := ["total rework hours"; "rework_hours"; "rework hours"];
  metric_name := "Total rework hours";
  zero_message := "Total rework hours is 0. Nothing to reduce."
|}.

(** A Python [dict] from text to text: setting a key that is present
    replaces its value. *)
Definition dict : Type := list (string * string).

Fixpoint dict_set (d : dict) (k v : string) : dict :=
  match d with
  | [] => [(k, v)]
  | (k', v') :: d' =>
      if String.eqb k k' then (k', v) :: d' else (k', v') :: dict_set d' k v
  end.

Fixpoint dict_get (d : dict) (k : string) : option string :=
  match d with
  | [] => None
  | (k', v') :: d' => if String.eqb k k' then Some v' else dict_get d' k
  end.

Definition find_col (df : DataFrame) (candidates : list string)
  : option string :=
  let lookup :=
    fold_left (fun d c => dict_set d (lower (strip c)) c) (columns df) [] in
  let fix loop (cands : list string) : option string :=
    match cands with
    | [] => None
    | cand :: cands' =>
        let key := lower (strip cand) in
        match dict_get lookup key with
        | Some c => Some c
        | None => loop cands'
        end
    end in
  loop candidates.

Definition parse_rate (x : cell) : result Q :=
  if isna x then Ok 0
  else
    match x with
    | Str x =>
        let s := strip_chars (list_ascii_of_string x) in
        match s with
        | [] => Ok 0
        | _ :: _ =>
            match re_search rate_pattern s with
            | None => Ok 0
            | Some m =>
                v <- py_float m ;;
                if has_percent s then Ok (py_max 0 (py_min 1 (v / 100)))
                else
                  Ok (py_max 0 (py_min 1 (if Qgtb v 1 then v / 100 else v)))
            end
        end
    | Num x =>
        let v := x in
        let v := if Qgtb v 1 then v / 100 else v in
        Ok (py_max 0 (py_min 1 v))
    | NaN => Ok 0
    end.

(** [1e-9] *)
Definition tolerance : Q := 1 # 1000000000.

(** The test that ends the walk: [cum + 1e-9 >= target]. *)
Definition stop (target cum : Q) : bool := Qgeb (cum + tolerance) target.

(** The part of [main] that follows the cleaning of the columns: total,
    target, ranking and selection (the [rank_and_select] of the
    specification). *)
Definition rank_and_select (cfg : config) (work : list Work) (goal : Q)
  : Outcome :=
  let total_cost := sum (map work_metric work) in
  if Qleb total_cost 0 then NothingToReduce (zero_message cfg)
  else
    let goal_fraction := goal / 100 in
    let target_cost := total_cost * goal_fraction in
    let work := map with_reducible work in
    let ranked := sort_values [reducible; metric] work in
    let '(selected, cum) := select_walk (stop target_cost) ranked [] 0 in
    let achieved_pct := (cum / total_cost) * 100 in
    Ranked {| total := total_cost; target := target_cost;
              ranked := ranked; selected := selected; cum := cum;
              achieved_pct := Some achieved_pct |}.

Definition main (cfg : config) (df : DataFrame) (goal : Q) : Outcome :=
  let col_activity :=
    find_col df ["value"; "activity"; "activity_name"; "name"] in
  let col_metric := find_col df (metric_candidates cfg) in
  let col_rate :=
    find_col df ["automation_rate"; "automation rate"; "automation"] in
  let missing :=
    match col_activity with None => ["value/activity"] | Some _ => [] end
    ++ match col_metric with None => [metric_name cfg] | Some _ => [] end
    ++ match col_rate with None => ["automation_rate"] | Some _ => [] end in
  match col_activity, col_metric, col_rate with
  | Some col_activity, Some col_metric, Some col_rate =>
      let at_ := at_col (columns df) in
      let work :=
        mapM (fun line =>
                r <- parse_rate (at_ col_rate line) ;;
                Ok (at_ col_activity line,
                    fillna 0 (to_numeric_coerce (at_ col_metric line)),
                    r))
             (rows df) in
      match work with
      | Raise e => Uncaught e
      | Ok work => rank_and_select cfg work goal
      end
  | _, _, _ => MissingColumns missing (columns df)
  end.

(** The status the process exits with: [main] returns 2 after the report
    of missing columns and 0 otherwise; an exception that nothing catches
    ends Python with status 1. *)
Definition exit_status (o : Outcome) : Z :=
  match o with
  | MissingColumns _ _ => 2
  | NothingToReduce _ => 0
  | Ranked _ => 0
  | Uncaught _ => 1
  end.

End Rework.

(** ** [total_time_reduction.py] *)

Module TimeReduction.

Definition parse_automation_rate (x : cell) : result Q :=
  if isna x then Ok 0
  else
    match x with
    | Str x =>
        let x := strip_chars (list_ascii_of_string x) in
        if has_percent x then
          v <- py_float (drop_percent x) ;; Ok (v / 100)
        else
          value <- py_float x ;;
          if Qgtb value 1 then Ok (value / 100) else Ok value
    | Num x =>
        (* [str(x)] of a number has no percent sign and [float] reads it
           back as the same number *)
        let value := x in
        if Qgtb value 1 then Ok (value / 100) else Ok value
    | NaN => Ok 0
    end.

(** The test that ends the walk: [cumulative >= target_reduction]. *)
Definition stop (target cum : Q) : bool := Qgeb cum target.

(** [in_columns col cols]: [col in df.columns] *)
Definition in_columns (col : string) (cols : list string) : bool :=
  existsb (String.eqb col) cols.

(** What pandas promises of [sort_values] on a single key with the
    default [kind="quicksort"]: the rows of the table, in descending order
    of the key.  The order it leaves among rows that tie on the key is
    not specified. *)
Definition descending_by_savings (srt : list Row -> list Row) : Prop :=
  forall table,
    Permutation table (srt table)
    /\ StronglySorted (fun a b => reducible b <= reducible a) (srt table).

Section Main.

(** [df.sort_values("potential_savings", ascending=False)] *)
Variable sort_by_savings : list Row -> list Row.

(** The part of [main] that follows the cleaning of the columns: total,
    target, ranking and selection. *)
Definition rank_and_select (work : list Work) (goal : Q) : Outcome :=
  let total_execution_time := sum (map work_metric work) in
  if Qeq_bool total_execution_time 0 then
    NothingToReduce "Total execution time is 0. Nothing to reduce."
  else
    let goal_fraction := goal / 100 in
    let target_reduction := total_execution_time * goal_fraction in
    let work := map with_reducible work in
    let ranked := sort_by_savings work in
    let '(selected, cumulative) :=
      select_walk (stop target_reduction) ranked [] 0 in
    Ranked {| total := total_execution_time;
              target := target_reduction;
              ranked := ranked; selected := selected;
              cum := cumulative;
              achieved_pct :=
                match selected with
                | [] => None
                | _ :: _ => Some ((cumulative / total_execution_time) * 100)
                end |}.

(** The model follows the script on the headers whose names are distinct
    once stripped and put in lower case: when a required name comes
    twice, [df[col]] is a table and not a column, and pandas raises on
    it. *)
Definition main (df : DataFrame) (goal : Q) : Outcome :=
  let columns := map (fun c => lower (strip c)) (columns df) in
  let required_cols := ["value"; "total_duration"; "automation_rate"] in
  match find (fun col => negb (in_columns col columns)) required_cols with
  | Some col => MissingColumns [col] columns
  | None =>
      let at_ := at_col columns in
      let work :=
        mapM (fun line =>
                r <- parse_automation_rate (at_ "automation_rate" line) ;;
                Ok (at_ "value" line,
                    fillna 0 (to_numeric_coerce (at_ "total_duration" line)),
                    r))
             (rows df) in
      match work with
      | Raise e => Uncaught e
      | Ok work => rank_and_select work goal
      end
  end.

End Main.

(** [sys.exit(1)] after the report of a missing column, [sys.exit(0)] on
    a zero total, 0 at the end of [main], 1 on an uncaught exception. *)
Definition exit_status (o : Outcome) : Z :=
  match o with
  | MissingColumns _ _ => 1
  | NothingToReduce _ => 0
  | Ranked _ => 0
  | Uncaught _ => 1
  end.

End TimeReduction.

(** * The three scripts as one program *)

(** The variants: the cost script, the hours script, and the generic
    duration script ([total_time_reduction.py]) with the sort pandas runs
    for it. *)
Inductive variant : Type :=
| Cost
| Hours
| Generic (sort_by_savings : list Row -> list Row).

(** A run of a variant on a file and a goal. *)
Definition run (v : variant) (df : DataFrame) (goal : Q) : Outcome :=
  match v with
  | Cost => Rework.main Rework.cost_cfg df goal
  | Hours => Rework.main Rework.hours_cfg df goal
  | Generic srt => TimeReduction.main srt df goal
  end.

(** The ranking and selection of a variant, on a working table. *)
Definition core (v : variant) (work : list Work) (goal : Q)
  : Outcome :=
  match v with
  | Cost => Rework.rank_and_select Rework.cost_cfg work goal
  | Hours => Rework.rank_and_select Rework.hours_cfg work goal
  | Generic srt => TimeReduction.rank_and_select srt work goal
  end.

(** The status a run of a variant exits with. *)
Definition exit_code (v : variant) (o : Outcome) : Z :=
  match v with
  | Generic _ => TimeReduction.exit_status o
  | _ => Rework.exit_status o
  end.

(** The test that ends the walk of a variant. *)
Definition stop_test (v : variant) (target cum : Q) : bool :=
  match v with
  | Generic _ => TimeReduction.stop target cum
  | _ => Rework.stop target cum
  end.

(** The variants that sort on the two keys. *)
Definition two_keys (v : variant) : Prop :=
  match v with
  | Cost | Hours => True
  | Generic _ => False
  end.

(** What pandas promises of the sort of a variant. *)
Definition admissible (v : variant) : Prop :=
  match v with
  | Generic srt => TimeReduction.descending_by_savings srt
  | _ => True
  end.

(** * Notions the properties are stated with *)

(** ** The selection walk *)

(** A row the walk does not skip: its reducible amount is above 0. *)
Definition positive (row : Row) : bool := negb (Qleb (reducible row) 0).

(** The rows the walk appends when it starts on [l] with the running
    total [c]. *)
Fixpoint picked (stop : Q -> bool) (l : list Row) (c : Q) : list Row :=
  match l with
  | [] => []
  | row :: rest =>
      if Qleb (reducible row) 0 then picked stop rest c
      else if stop (c + reducible row) then [row]
      else row :: picked stop rest (c + reducible row)
  end.

(** The running total after the rows of [l], from [c]: [cum += ...]. *)
Definition running (c : Q) (l : list Row) : Q :=
  fold_left (fun a row => a + reducible row) l c.

(** ** The ranking *)

(** [may_precede by_ a b]: in descending order on the keys [by_], taken
    in turn, [a] comes no later than [b]. *)
Fixpoint may_precede (by_ : list (Row -> Q)) (a b : Row) : Prop :=
  match by_ with
  | [] => True
  | k :: ks => k b < k a \/ (k a == k b /\ may_precede ks a b)
  end.

(** Rows that tie with [r] on every key. *)
Definition ties (by_ : list (Row -> Q)) (r x : Row) : bool :=
  forallb (fun k : Row -> Q => Qeq_bool (k x) (k r)) by_.

(** ** The text a pattern matches *)

(** [matches re m]: [m] is made of one segment per item of [re], each of
    characters of the item's class and of a length its quantifier
    allows. *)
Fixpoint matches (re : pattern) (m : list ascii) : Prop :=
  match re with
  | [] => m = []
  | (cls, q) :: re' =>
      exists seg tl,
        m = seg ++ tl
        /\ Forall (fun c => cls c = true) seg
        /\ match q with
           | One => List.length seg = 1%nat
           | Opt => (List.length seg <= 1)%nat
           | Star => True
           | Plus => seg <> []
           end
        /\ matches re' tl
  end.

(** What may follow a run of digits that is read whole: nothing, or a
    point. *)
Definition ends_run (rest : list ascii) : Prop :=
  rest = [] \/ exists r, rest = "."%char :: r.

(** ** The rule of the specification for rates

    In the specification's words: a number that came with a percent sign
    is divided by 100; one that came without is divided by 100 when it is
    above 1 and kept when it is not; the result is clamped into [0, 1];
    a cell that is missing, empty or holds no number gives 0. *)

Definition clamp01 (v : Q) : Q :=
  if Qltb v 0 then 0 else if Qltb 1 v then 1 else v.

Definition reference_rate (percent : bool) (v : Q) : Q :=
  clamp01 (if percent then v / 100
           else if Qgtb v 1 then v / 100 else v).

(** The number a cell holds, and whether a percent sign comes with it:
    the number itself, or the first decimal number in the text. *)
Definition extract (x : cell) : option (bool * Q) :=
  match x with
  | NaN => None
  | Num v => Some (false, v)
  | Str s =>
      let s := strip_chars (list_ascii_of_string s) in
      match re_search rate_pattern s with
      | Some m =>
          match py_float m with
          | Ok v => Some (has_percent s, v)
          | Raise _ => None
          end
      | None => None
      end
  end.

Definition reference_parse (x : cell) : Q :=
  match extract x with
  | Some (percent, v) => reference_rate percent v
  | None => 0
  end.

(** [returns r q]: the call returned a number equal to [q]. *)
Definition returns (r : result Q) (q : Q) : Prop :=
  match r with
  | Ok v => v == q
  | Raise _ => False
  end.

(** ** The report of missing columns *)

(** The names under which the cost and hours scripts report the logical
    columns they cannot resolve. *)
Definition unresolved (cfg : Rework.config) (df : DataFrame) : list string :=
  match Rework.find_col df ["value"; "activity"; "activity_name"; "name"] with
  | None => ["value/activity"]
  | Some _ => []
  end
  ++ match Rework.find_col df (Rework.metric_candidates cfg) with
     | None => [Rework.metric_name cfg]
     | Some _ => []
     end
  ++ match Rework.find_col df
             ["automation_rate"; "automation rate"; "automation"] with
     | None => ["automation_rate"]
     | Some _ => []
     end.

(** ** Minimality as it is stated *)


(** * Example tables *)

(** A table every script accepts: the activity, its metric value under
    the three names the scripts look for, and its rate. *)
Definition table (records : list (string * Q * cell)) : DataFrame :=
  {| columns := ["value"; "Total rework cost"; "Total rework hours";
                 "total_duration"; "automation_rate"];
     rows := map (fun '(a, m, r) => [Str a; Num m; Num m; Num m; r])
                 records |}.

(** The example of the specification: A (100, 0.5), B (50, 1.0),
    C (200, 0.1). *)
Definition example_table : DataFrame :=
  table [("A", 100, Num (1 # 2)); ("B", 50, Num 1); ("C", 200, Num (1 # 10))].

(** Two activities with the same reducible amount, the second with the
    greater metric value. *)
Definition tie_table : DataFrame :=
  table [("A", 50, Num 1); ("B", 100, Num (1 # 2))].

(** Two activities that tie on both keys. *)
Definition twins : list Work :=
  [(Str "A", 10, 1 # 2); (Str "B", 10, 1 # 2)].

(** A first row that misses the target by less than the tolerance:
    total 2, goal 25.00000001, target 0.5000000002. *)
Definition near_miss_table : DataFrame :=
  table [("A", 1, Num (1 # 2)); ("B", 1, Num (1 # 2))].

Definition near_miss_goal : Q := 2500000001 # 100000000.

(** A total below zero. *)
Definition negative_total_table : DataFrame :=
  table [("A", -10, Num (1 # 2)); ("B", 4, Num (1 # 2))].

(** A rate cell that is no number. *)
Definition bad_rate_table : DataFrame :=
  table [("A", 100, Str "abc"); ("B", 50, Num 1)].

(** A file with none of the required columns. *)
Definition foreign_table : DataFrame :=
  {| columns := ["Id"; "Cost"]; rows := [[Num 1; Num 100]] |}.

(** * Notions for the further properties *)

(** The form under which [find_col] compares names: [c.strip().lower()]. *)
Definition norm (c : string) : string := lower (strip c).

(** The plain decimal texts: digits, or digits, a point and digits. *)
Definition plain_decimal (t : list ascii) : Prop :=
  exists ds1 ds2,
    Forall (fun c => is_digit c = true) ds1 /\ ds1 <> []
    /\ Forall (fun c => is_digit c = true) ds2
    /\ (t = ds1 \/ (ds2 <> [] /\ t = ds1 ++ "."%char :: ds2)).

(** The tolerance of the test that ends the walk of a variant. *)
Definition tolerance_of (v : variant) : Q :=
  match v with
  | Generic _ => 0
  | _ => Rework.tolerance
  end.

(** The columns [total_time_reduction.py] requires. *)
Definition required_cols : list string :=
  ["value"; "total_duration"; "automation_rate"].

(** A header that names the activity column twice, up to case. *)
Definition doubled_header : DataFrame :=
  {| columns := ["Value"; "value "; "Rework_Cost"; "Automation"];
     rows := [[Str "old"; Str "new"; Num 10; Num 1]] |}.

(** [headed df cands]: some column of the file has, once stripped and put
    in lower case, the name of one of the candidates. *)
Definition headed (df : DataFrame) (cands : list string) : bool :=
  existsb (fun cand =>
             existsb (fun c => String.eqb (norm c) (norm cand)) (columns df))
          cands.

(** The logical columns of the cost and hours scripts: the name each is
    reported under when it is missing, and the header names accepted for
    it. *)
Definition logical_columns (cfg : Rework.config)
  : list (string * list string) :=
  [("value/activity", ["value"; "activity"; "activity_name"; "name"]);
   (Rework.metric_name cfg, Rework.metric_candidates cfg);
   ("automation_rate", ["automation_rate"; "automation rate"; "automation"])].

(** A text that does not start with a character of the class. *)
Definition not_headed (cls : ascii -> bool) (rest : list ascii) : Prop :=
  match rest with
  | [] => True
  | c :: _ => cls c = false
  end.

(** * Properties *)

(** ** Comparisons *)

Lemma Qltb_lt (x y : Q) : Qltb x y = true <-> x < y.
Proof.
  unfold Qltb. rewrite negb_true_iff, <- not_true_iff_false, Qle_bool_iff.
  split; [apply Qnot_le_lt | apply Qlt_not_le].
Qed.

Lemma Qltb_ge (x y : Q) : Qltb x y = false <-> y <= x.
Proof.
  unfold Qltb. rewrite negb_false_iff. apply Qle_bool_iff.
Qed.

Lemma Qgtb_gt (x y : Q) : Qgtb x y = true <-> y < x.
Proof. apply Qltb_lt. Qed.

Lemma Qgtb_le (x y : Q) : Qgtb x y = false <-> x <= y.
Proof. apply Qltb_ge. Qed.

Lemma Qleb_le (x y : Q) : Qleb x y = true <-> x <= y.
Proof. apply Qle_bool_iff. Qed.

Lemma Qleb_gt (x y : Q) : Qleb x y = false <-> y < x.
Proof.
  unfold Qleb. rewrite <- not_true_iff_false, Qle_bool_iff.
  split; [apply Qnot_le_lt | apply Qlt_not_le].
Qed.

Lemma Qgeb_ge (x y : Q) : Qgeb x y = true <-> y <= x.
Proof. apply Qle_bool_iff. Qed.

Lemma Qgeb_lt (x y : Q) : Qgeb x y = false <-> x < y.
Proof. apply Qleb_gt. Qed.

Lemma Qeq_bool_neq_iff (x y : Q) : Qeq_bool x y = false <-> ~ x == y.
Proof. rewrite <- not_true_iff_false, Qeq_bool_iff. tauto. Qed.

(** ** The selection walk *)

Lemma positive_gt (row : Row) : positive row = true <-> 0 < reducible row.
Proof. unfold positive. rewrite negb_true_iff. apply Qleb_gt. Qed.

Lemma select_walk_picked (stop : Q -> bool) (l sel : list Row) (c : Q) :
  select_walk stop l sel c
  = (sel ++ picked stop l c, running c (picked stop l c)).
Proof.
  revert sel c. induction l as [|row rest IH]; intros sel c; simpl.
  - now rewrite app_nil_r.
  - destruct (Qleb (reducible row) 0); [apply IH|].
    destruct (stop (c + reducible row)); simpl; [reflexivity|].
    rewrite IH, <- app_assoc. reflexivity.
Qed.

Lemma picked_positive (stop : Q -> bool) (l : list Row) (c : Q) :
  Forall (fun row => positive row = true) (picked stop l c).
Proof.
  revert c. induction l as [|row rest IH]; intros c; simpl; [constructor|].
  unfold positive at 1.
  destruct (Qleb (reducible row) 0) eqn:E; [apply IH|].
  assert (positive row = true) by (unfold positive; now rewrite E).
  destruct (stop (c + reducible row)); repeat constructor; auto.
Qed.

(** The appended rows are a prefix of the rows with a positive amount. *)
Lemma picked_prefix (stop : Q -> bool) (l : list Row) (c : Q) :
  exists rest, filter positive l = picked stop l c ++ rest.
Proof.
  revert c. induction l as [|row l IH]; intros c; simpl.
  - now exists [].
  - unfold positive at 1.
    destruct (Qleb (reducible row) 0); simpl; [apply IH|].
    destruct (stop (c + reducible row)).
    + now exists (filter positive l).
    + destruct (IH (c + reducible row)) as [rest ->]. now exists rest.
Qed.

(** After every appended row but the last, the test was evaluated and
    failed. *)
Lemma picked_continue (stop : Q -> bool) (l : list Row) (c : Q)
      (p q : list Row) :
  picked stop l c = p ++ q -> p <> [] -> q <> [] ->
  stop (running c p) = false.
Proof.
  revert c p. induction l as [|row l IH]; intros c p; simpl.
  - intros H Hp _. symmetry in H. apply app_eq_nil in H. tauto.
  - destruct (Qleb (reducible row) 0); [apply IH|].
    destruct (stop (c + reducible row)) eqn:E.
    + intros H Hp Hq. destruct p as [|a p]; [tauto|].
      simpl in H. injection H as _ H.
      symmetry in H. apply app_eq_nil in H. tauto.
    + intros H Hp Hq. destruct p as [|a p]; [tauto|].
      simpl in H. inversion H; subst a. simpl.
      destruct p as [|b p]; [exact E|].
      apply (IH (c + reducible row) (b :: p)); auto. discriminate.
Qed.

(** The walk ends before the last positive row only on a test that
    holds. *)
Lemma picked_stopped (stop : Q -> bool) (l : list Row) (c : Q) :
  picked stop l c <> filter positive l ->
  stop (running c (picked stop l c)) = true.
Proof.
  revert c. induction l as [|row l IH]; intros c; simpl; [tauto|].
  unfold positive at 1.
  destruct (Qleb (reducible row) 0); simpl; [apply IH|].
  destruct (stop (c + reducible row)) eqn:E; simpl; [auto|].
  intros H. apply IH. congruence.
Qed.


Lemma running_sum (l : list Row) :
  running 0 l = sum (map reducible l).
Proof.
  unfold running, sum. generalize 0. induction l; simpl; auto.
Qed.

(** ** What a run that ranks has computed *)

Lemma Rework_rank_and_select_inv (cfg : Rework.config) (work : list Work)
      (goal : Q) (rep : Report) :
  Rework.rank_and_select cfg work goal = Ranked rep ->
  total rep = sum (map work_metric work)
  /\ 0 < total rep
  /\ target rep = total rep * (goal / 100)
  /\ ranked rep = sort_values [reducible; metric] (map with_reducible work)
  /\ selected rep = picked (Rework.stop (target rep)) (ranked rep) 0
  /\ cum rep = running 0 (selected rep).
Proof.
  unfold Rework.rank_and_select.
  destruct (Qleb (sum (map work_metric work)) 0) eqn:E; [discriminate|].
  rewrite select_walk_picked. simpl. intros [= <-]. simpl.
  apply Qleb_gt in E. repeat split; auto.
Qed.

Lemma Rework_main_inv (cfg : Rework.config) (df : DataFrame) (goal : Q)
      (rep : Report) :
  Rework.main cfg df goal = Ranked rep ->
  exists work, Rework.rank_and_select cfg work goal = Ranked rep.
Proof.
  unfold Rework.main.
  destruct (Rework.find_col df _); [|discriminate].
  destruct (Rework.find_col df _); [|discriminate].
  destruct (Rework.find_col df _); [|discriminate].
  destruct (mapM _ _) as [work|]; [|discriminate].
  intros H. now exists work.
Qed.

Lemma TimeReduction_rank_and_select_inv (srt : list Row -> list Row)
      (work : list Work) (goal : Q) (rep : Report) :
  TimeReduction.rank_and_select srt work goal = Ranked rep ->
  total rep = sum (map work_metric work)
  /\ ~ total rep == 0
  /\ target rep = total rep * (goal / 100)
  /\ ranked rep = srt (map with_reducible work)
  /\ selected rep = picked (TimeReduction.stop (target rep)) (ranked rep) 0
  /\ cum rep = running 0 (selected rep).
Proof.
  unfold TimeReduction.rank_and_select.
  destruct (Qeq_bool (sum (map work_metric work)) 0) eqn:E; [discriminate|].
  rewrite select_walk_picked. simpl. intros [= <-]. simpl.
  apply Qeq_bool_neq_iff in E. repeat split; auto.
Qed.

Lemma TimeReduction_main_inv (srt : list Row -> list Row) (df : DataFrame)
      (goal : Q) (rep : Report) :
  TimeReduction.main srt df goal = Ranked rep ->
  exists work, TimeReduction.rank_and_select srt work goal = Ranked rep.
Proof.
  unfold TimeReduction.main.
  destruct (find _ _); [discriminate|].
  destruct (mapM _ _) as [work|]; [|discriminate].
  intros H. now exists work.
Qed.

(** ** The ranking *)

Section Ranking.

Variable by_ : list (Row -> Q).

Lemma before_false (a b : Row) :
  before by_ b a = false <-> may_precede by_ a b.
Proof.
  induction by_ as [|k ks IH]; simpl; [tauto|].
  destruct (Qgtb (k b) (k a)) eqn:G.
  - apply Qgtb_gt in G. split; [discriminate|].
    intros [H | [H _]]; lra.
  - apply Qgtb_le in G.
    destruct (Qeq_bool (k b) (k a)) eqn:E.
    + apply Qeq_bool_iff in E. rewrite IH. split.
      * intros H. right. split; [lra | exact H].
      * intros [H | [_ H]]; [lra | exact H].
    + apply Qeq_bool_neq_iff in E. split; [|reflexivity].
      intros _. left. destruct (Qlt_le_dec (k b) (k a)) as [L|L]; [exact L|].
      exfalso. apply E. lra.
Qed.

Lemma before_true (a b : Row) :
  before by_ a b = true -> may_precede by_ a b.
Proof.
  induction by_ as [|k ks IH]; simpl; [tauto|].
  destruct (Qgtb (k a) (k b)) eqn:G.
  - apply Qgtb_gt in G. auto.
  - destruct (Qeq_bool (k a) (k b)) eqn:E; [|discriminate].
    apply Qeq_bool_iff in E. auto.
Qed.

Lemma may_precede_trans (a b c : Row) :
  may_precede by_ a b -> may_precede by_ b c -> may_precede by_ a c.
Proof.
  induction by_ as [|k ks IH]; simpl; [tauto|].
  intros [H1 | [H1 H1']] [H2 | [H2 H2']].
  - left. lra.
  - left. lra.
  - left. lra.
  - right. split; [lra | auto].
Qed.

Lemma ties_not_before (r a b : Row) :
  ties by_ r a = true -> ties by_ r b = true -> before by_ a b = false.
Proof.
  unfold ties. induction by_ as [|k ks IH]; simpl; [reflexivity|].
  rewrite !andb_true_iff, !Qeq_bool_iff. intros [Ha Ha'] [Hb Hb'].
  assert (G : Qgtb (k a) (k b) = false) by (apply Qgtb_le; lra).
  assert (E : Qeq_bool (k a) (k b) = true) by (apply Qeq_bool_iff; lra).
  rewrite G, E. auto.
Qed.

Lemma insert_perm (x : Row) (l : list Row) :
  Permutation (x :: l) (insert by_ x l).
Proof.
  induction l as [|y l IH]; simpl; [reflexivity|].
  destruct (before by_ y x); [|reflexivity].
  rewrite perm_swap. now constructor.
Qed.

Lemma sort_values_perm (l : list Row) :
  Permutation l (sort_values by_ l).
Proof.
  induction l as [|x l IH]; simpl; [constructor|].
  rewrite <- insert_perm. now constructor.
Qed.

Lemma insert_sorted (x : Row) (l : list Row) :
  Sorted (may_precede by_) l -> Sorted (may_precede by_) (insert by_ x l).
Proof.
  induction 1 as [|y l Hs IH Hd]; simpl; [repeat constructor|].
  destruct (before by_ y x) eqn:B.
  - constructor; [exact IH|].
    destruct Hd as [|z l Hz]; simpl.
    + constructor. now apply before_true.
    + destruct (before by_ z x); constructor; auto. now apply before_true.
  - constructor; [now constructor|].
    constructor. now apply before_false.
Qed.

Lemma sort_values_sorted (l : list Row) :
  StronglySorted (may_precede by_) (sort_values by_ l).
Proof.
  apply Sorted_StronglySorted.
  - intros a b c. apply may_precede_trans.
  - induction l as [|x l IH]; simpl; [constructor|].
    now apply insert_sorted.
Qed.

(** Stability: inserting a row leaves the rows that tie on every key in
    the order they had. *)
Lemma filter_ties_insert (r x : Row) (l : list Row) :
  filter (ties by_ r) (insert by_ x l) = filter (ties by_ r) (x :: l).
Proof.
  induction l as [|y l IH]; simpl; [reflexivity|].
  destruct (before by_ y x) eqn:B; [|reflexivity].
  simpl. rewrite IH. simpl.
  destruct (ties by_ r y) eqn:Ty, (ties by_ r x) eqn:Tx; try reflexivity.
  rewrite (ties_not_before r y x Ty Tx) in B. discriminate.
Qed.

Lemma sort_values_stable (r : Row) (l : list Row) :
  filter (ties by_ r) (sort_values by_ l) = filter (ties by_ r) l.
Proof.
  induction l as [|x l IH]; simpl; [reflexivity|].
  rewrite filter_ties_insert. simpl. now rewrite IH.
Qed.

End Ranking.

Lemma StronglySorted_weaken {A : Type} (R S : A -> A -> Prop) (l : list A) :
  (forall a b, R a b -> S a b) -> StronglySorted R l -> StronglySorted S l.
Proof.
  intros RS. induction 1 as [|a l H IH Ha]; constructor; auto.
  eapply Forall_impl; [|exact Ha]. auto.
Qed.

Lemma descending_of_sorted (l : list Row) :
  StronglySorted (may_precede [reducible]) l ->
  StronglySorted (fun a b => reducible b <= reducible a) l.
Proof.
  induction 1 as [|a l Hs IH Ha]; constructor; auto.
  eapply Forall_impl; [|exact Ha].
  simpl. intros b [H | [H _]]; lra.
Qed.

(** The stable sort on the single key meets what pandas promises of the
    sort of [total_time_reduction.py]. *)
Lemma sort_values_descending :
  TimeReduction.descending_by_savings (sort_values [reducible]).
Proof.
  intros table. split.
  - apply sort_values_perm.
  - apply descending_of_sorted, sort_values_sorted.
Qed.

(** ** The text a pattern matches *)

Lemma re_star_sound (cls : ascii -> bool)
      (k : list ascii -> option (list ascii)) (P : list ascii -> Prop) :
  (forall s m, k s = Some m -> P m) ->
  forall s m, re_star cls k s = Some m ->
    exists seg tl,
      m = seg ++ tl /\ Forall (fun c => cls c = true) seg /\ P tl.
Proof.
  intros Hk. induction s as [|c s IH]; simpl; intros m H.
  - exists [], m. eauto.
  - destruct (cls c) eqn:C; [|exists [], m; eauto].
    destruct (re_star cls k s) as [m'|] eqn:R.
    + injection H as <-. destruct (IH m' eq_refl) as (seg & tl & -> & F & HP).
      exists (c :: seg), tl. auto.
    + exists [], m. eauto.
Qed.

Lemma re_match_sound (re : pattern) :
  forall s m, re_match re s = Some m -> matches re m.
Proof.
  induction re as [|[cls q] re IH]; simpl; intros s m H.
  - congruence.
  - destruct q.
    + destruct s as [|c s]; [discriminate|].
      destruct (cls c) eqn:C; [|discriminate].
      destruct (re_match re s) as [m'|] eqn:R; [|discriminate].
      injection H as <-. exists [c], m'. eauto 6.
    + assert (skip : forall s', re_match re s' = Some m ->
                exists seg tl, m = seg ++ tl
                  /\ Forall (fun c => cls c = true) seg
                  /\ (List.length seg <= 1)%nat /\ matches re tl).
      { intros s' R. exists [], m. simpl. eauto 6. }
      destruct s as [|c s]; [eauto|].
      destruct (cls c) eqn:C; [|eauto].
      destruct (re_match re s) as [m'|] eqn:R; [|eauto].
      injection H as <-. exists [c], m'. simpl. eauto 6.
    + destruct (re_star_sound cls (re_match re) (matches re) IH s m H)
        as (seg & tl & -> & F & M).
      exists seg, tl. auto.
    + destruct s as [|c s]; [discriminate|].
      destruct (cls c) eqn:C; [|discriminate].
      destruct (re_star cls (re_match re) s) as [m'|] eqn:R; [|discriminate].
      injection H as <-.
      destruct (re_star_sound cls (re_match re) (matches re) IH s m' R)
        as (seg & tl & -> & F & M).
      exists (c :: seg), tl. repeat split; auto. discriminate.
Qed.

Lemma re_search_sound (re : pattern) (s m : list ascii) :
  re_search re s = Some m -> matches re m.
Proof.
  induction s as [|c s IH]; simpl.
  - destruct (re_match re []) eqn:R; [|discriminate].
    intros [= <-]. eapply re_match_sound; eauto.
  - destruct (re_match re (c :: s)) eqn:R; [|exact IH].
    intros [= <-]. eapply re_match_sound; eauto.
Qed.

(** ** [float] reads whatever the rate pattern matches *)

Lemma is_digit_not_space (c : ascii) : is_digit c = true -> is_space c = false.
Proof.
  unfold is_digit, is_space. generalize (nat_of_ascii c). intros n.
  rewrite andb_true_iff, !Nat.leb_le. intros [H1 H2].
  rewrite !orb_false_iff, !andb_false_iff, !Nat.leb_gt, !Nat.eqb_neq. lia.
Qed.

(** What [float] and [pd.to_numeric] skip, [str.strip] removes. *)
Lemma is_blank_space (us : bool) (c : ascii) :
  is_space c = false -> is_blank us c = false.
Proof.
  unfold is_blank, is_space. generalize (nat_of_ascii c). intros n.
  rewrite !orb_false_iff, !andb_false_iff, !orb_false_iff, !Nat.leb_gt,
    !Nat.eqb_neq.
  intros H. split; [lia|]. destruct us; [right; lia | now left].
Qed.

Lemma is_sign_cases (c : ascii) :
  is_sign c = true -> c = "-"%char \/ c = "+"%char.
Proof.
  unfold is_sign. rewrite orb_true_iff, !Ascii.eqb_eq. tauto.
Qed.

Lemma is_dot_eq (c : ascii) : is_dot c = true -> c = "."%char.
Proof. apply Ascii.eqb_eq. Qed.

Lemma lstrip_id (s : list ascii) :
  Forall (fun c => is_space c = false) s -> lstrip s = s.
Proof. destruct 1 as [|c s H _]; simpl; [reflexivity | now rewrite H]. Qed.

Lemma strip_chars_id (s : list ascii) :
  Forall (fun c => is_space c = false) s -> strip_chars s = s.
Proof.
  intros H. unfold strip_chars. rewrite (lstrip_id s H).
  rewrite lstrip_id; [apply rev_involutive|].
  apply Forall_rev. exact H.
Qed.

Lemma skip_blanks_id (us : bool) (s : list ascii) :
  Forall (fun c => is_space c = false) s -> skip_blanks us s = s.
Proof.
  destruct 1 as [|c s H _]; simpl; [reflexivity|].
  now rewrite (is_blank_space us c H).
Qed.

Lemma trim_id (us : bool) (s : list ascii) :
  Forall (fun c => is_space c = false) s -> trim us s = s.
Proof.
  intros H. unfold trim. rewrite (skip_blanks_id us s H).
  rewrite skip_blanks_id; [apply rev_involutive|].
  apply Forall_rev. exact H.
Qed.

Lemma digits_tail_run (ds rest : list ascii) :
  Forall (fun c => is_digit c = true) ds -> ends_run rest ->
  digits_tail true (ds ++ rest) = (map digit_val ds, rest).
Proof.
  intros F E. induction F as [|c ds C _ IH]; simpl.
  - destruct E as [-> | [r ->]]; reflexivity.
  - now rewrite C, IH.
Qed.

Lemma digitpart_run (ds rest : list ascii) :
  Forall (fun c => is_digit c = true) ds -> ends_run rest ->
  digitpart true (ds ++ rest) = (map digit_val ds, rest).
Proof.
  intros F E. destruct F as [|c ds C F]; simpl.
  - destruct E as [-> | [r ->]]; reflexivity.
  - now rewrite C, digits_tail_run.
Qed.

Lemma split_sign_digit (ds rest : list ascii) :
  Forall (fun c => is_digit c = true) ds -> ends_run rest ->
  split_sign (ds ++ rest) = (false, ds ++ rest).
Proof.
  intros F E. destruct F as [|c ds C F]; simpl.
  - destruct E as [-> | [r ->]]; reflexivity.
  - destruct (Ascii.eqb c "-") eqn:E1.
    { apply Ascii.eqb_eq in E1. subst c. discriminate. }
    destruct (Ascii.eqb c "+") eqn:E2.
    { apply Ascii.eqb_eq in E2. subst c. discriminate. }
    reflexivity.
Qed.

(** The digits of a number, a point between them or not, are a decimal
    literal once a sign is taken off. *)
Lemma decimal_unsigned (ds1 dt ds2 : list ascii) :
  Forall (fun c => is_digit c = true) ds1 ->
  Forall (fun c => is_dot c = true) dt -> (List.length dt <= 1)%nat ->
  Forall (fun c => is_digit c = true) ds2 -> ds2 <> [] ->
  exists ip s2,
    digitpart true (ds1 ++ dt ++ ds2) = (ip, s2)
    /\ exists fp,
        match s2 with
        | c :: s2' => if is_dot c then digitpart true s2' else ([], s2)
        | [] => ([], [])
        end = (fp, [])
        /\ ip ++ fp <> [].
Proof.
  intros F1 Fd Ld F2 N2.
  destruct dt as [|d [|d' dt]]; [| |simpl in Ld; lia].
  - simpl. rewrite <- (app_nil_r (ds1 ++ ds2)).
    rewrite digitpart_run; [|apply Forall_app; auto | now left].
    eexists _, _. split; [reflexivity|]. exists []. split; [reflexivity|].
    rewrite app_nil_r, map_app.
    destruct ds2; [tauto|]. intros H. apply app_eq_nil in H.
    destruct H; discriminate.
  - inversion Fd as [|? ? D _]; subst. apply is_dot_eq in D. subst d.
    simpl. rewrite digitpart_run; [|auto | right; eauto].
    eexists _, _. split; [reflexivity|]. simpl.
    rewrite <- (app_nil_r ds2). rewrite digitpart_run; [|auto | now left].
    eexists. split; [reflexivity|].
    destruct ds2; [tauto|]. intros H. apply app_eq_nil in H.
    destruct H; discriminate.
Qed.

Lemma decimal_after_sign (ds1 dt ds2 : list ascii) :
  Forall (fun c => is_digit c = true) ds1 ->
  Forall (fun c => is_dot c = true) dt -> (List.length dt <= 1)%nat ->
  Forall (fun c => is_digit c = true) ds2 -> ds2 <> [] ->
  exists v, unsigned_decimal true (ds1 ++ dt ++ ds2) = Some v.
Proof.
  intros F1 Fd Ld F2 N2. unfold unsigned_decimal.
  destruct (decimal_unsigned ds1 dt ds2 F1 Fd Ld F2 N2)
    as (ip & s2 & -> & fp & -> & N).
  destruct (ip ++ fp) eqn:E; [tauto|]. simpl. eauto.
Qed.

Lemma split_sign_unsigned (ds1 dt ds2 : list ascii) :
  Forall (fun c => is_digit c = true) ds1 ->
  Forall (fun c => is_dot c = true) dt -> (List.length dt <= 1)%nat ->
  Forall (fun c => is_digit c = true) ds2 ->
  split_sign (ds1 ++ dt ++ ds2) = (false, ds1 ++ dt ++ ds2).
Proof.
  intros F1 Fd Ld F2.
  destruct dt as [|d [|d' dt]]; [| |simpl in Ld; lia].
  - simpl. rewrite <- (app_nil_r (ds1 ++ ds2)).
    apply split_sign_digit; [apply Forall_app; auto | now left].
  - inversion Fd as [|? ? D _]; subst. apply is_dot_eq in D. subst d.
    apply split_sign_digit; [auto | right; eexists; reflexivity].
Qed.

(** [float(m.group(0))] raises nothing. *)
Lemma py_float_of_match (m : list ascii) :
  matches rate_pattern m -> exists v, py_float m = Ok v.
Proof.
  simpl. intros (sg & t1 & -> & Fs & Ls & ds1 & t2 & -> & F1 & _
                 & dt & t3 & -> & Fd & Ld & ds2 & t4 & -> & F2 & N2 & ->).
  rewrite app_nil_r.
  assert (S1 : Forall (fun c => is_space c = false) (ds1 ++ dt ++ ds2)).
  { apply Forall_app; split; [|apply Forall_app; split];
      (eapply Forall_impl; [|eassumption]); simpl; intros c Hc.
    - now apply is_digit_not_space.
    - apply is_dot_eq in Hc. now subst c.
    - now apply is_digit_not_space. }
  unfold py_float, decimal.
  destruct (decimal_after_sign ds1 dt ds2 F1 Fd Ld F2 N2) as [v Hv].
  destruct sg as [|c [|c' sg]]; [| |simpl in Ls; lia].
  - simpl app. rewrite (trim_id _ _ S1).
    rewrite (split_sign_unsigned ds1 dt ds2 F1 Fd Ld F2), Hv. eauto.
  - inversion Fs as [|? ? C _]; subst.
    assert (Sc : is_space c = false)
      by (destruct (is_sign_cases c C); subst c; reflexivity).
    rewrite trim_id by (simpl; constructor; auto).
    destruct (is_sign_cases c C); subst c; simpl split_sign; cbv iota;
      rewrite Hv; eauto.
Qed.

(** ** The rate parser of the cost and hours scripts *)

(** [max(0.0, min(1.0, v))] lies between 0 and 1. *)
Lemma clamp_range (v : Q) : 0 <= py_max 0 (py_min 1 v) <= 1.
Proof.
  unfold py_max, py_min.
  destruct (Qltb v 1) eqn:L.
  - apply Qltb_lt in L. destruct (Qgtb v 0) eqn:G.
    + apply Qgtb_gt in G. lra.
    + lra.
  - destruct (Qgtb 1 0) eqn:G; lra.
Qed.

Lemma parse_rate_total (x : cell) : exists q, Rework.parse_rate x = Ok q.
Proof.
  destruct x as [|v|s]; unfold Rework.parse_rate;
    cbv beta iota zeta delta [isna]; [eexists; reflexivity ..|].
  destruct (strip_chars (list_ascii_of_string s)) as [|c t] eqn:S;
    [eexists; reflexivity|].
  destruct (re_search rate_pattern (c :: t)) as [m|] eqn:R;
    [|eexists; reflexivity].
  apply re_search_sound in R.
  destruct (py_float_of_match m R) as [v ->]. unfold bind.
  destruct (has_percent (c :: t)); eexists; reflexivity.
Qed.

Lemma parse_rate_range (x : cell) (q : Q) :
  Rework.parse_rate x = Ok q -> 0 <= q <= 1.
Proof.
  destruct x as [|v|s]; unfold Rework.parse_rate;
    cbv beta iota zeta delta [isna].
  - intros [= <-]. lra.
  - intros [= <-]. apply clamp_range.
  - destruct (strip_chars (list_ascii_of_string s)) as [|c t] eqn:S.
    { intros [= <-]. lra. }
    destruct (re_search rate_pattern (c :: t)) as [m|] eqn:R.
    2:{ intros [= <-]. lra. }
    destruct (py_float m) as [v|]; unfold bind; [|discriminate].
    destruct (has_percent (c :: t)); intros [= <-]; apply clamp_range.
Qed.

Lemma mapM_total {A B : Type} (f : A -> result B) (l : list A) :
  (forall x, exists y, f x = Ok y) -> exists ys, mapM f l = Ok ys.
Proof.
  intros H. induction l as [|x l [ys IH]]; simpl; eauto.
  destruct (H x) as [y ->]. simpl. rewrite IH. simpl. eauto.
Qed.

(** No run of the cost and hours scripts ends on an exception. *)
Lemma Rework_main_never_raises (cfg : Rework.config) (df : DataFrame)
      (goal : Q) (e : exn) :
  Rework.main cfg df goal <> Uncaught e.
Proof.
  unfold Rework.main.
  destruct (Rework.find_col df _); [|discriminate].
  destruct (Rework.find_col df _); [|destruct (Rework.find_col df _); discriminate].
  destruct (Rework.find_col df _); [|discriminate].
  match goal with |- context [mapM ?f ?l] =>
    destruct (mapM_total f l) as [work ->] end.
  - intros line. destruct (parse_rate_total (at_col (columns df) s1 line))
      as [q ->]. simpl. eauto.
  - unfold Rework.rank_and_select.
    destruct (Qleb _ 0); [discriminate|].
    destruct (select_walk _ _ _ _). discriminate.
Qed.

(** ** The three scripts as one program *)

Lemma run_inv (v : variant) (df : DataFrame) (goal : Q) (rep : Report) :
  run v df goal = Ranked rep ->
  exists work, core v work goal = Ranked rep.
Proof.
  destruct v; simpl;
    [apply Rework_main_inv .. | apply TimeReduction_main_inv].
Qed.

Lemma rank_and_select_inv (v : variant) (work : list Work) (goal : Q)
      (rep : Report) :
  core v work goal = Ranked rep ->
  total rep = sum (map work_metric work)
  /\ ~ total rep == 0
  /\ target rep = total rep * (goal / 100)
  /\ selected rep = picked (stop_test v (target rep)) (ranked rep) 0
  /\ cum rep = running 0 (selected rep).
Proof.
  destruct v; simpl; intros H;
    [apply Rework_rank_and_select_inv in H
    |apply Rework_rank_and_select_inv in H
    |apply TimeReduction_rank_and_select_inv in H];
    destruct H as (H1 & H2 & H3 & H4 & H5 & H6); repeat split; auto; lra.
Qed.




(** ** The claims about the selection *)

(** C5.  In every variant, and whatever the goal, every row of the
    selected subset has a reducible amount above 0: a row whose reducible
    amount is [<= 0] is skipped by the walk and never selected, also when
    the goal is out of reach. *)
Theorem C5_selected_rows_are_positive
        (v : variant) (df : DataFrame) (goal : Q) (rep : Report) (row : Row) :
  run v df goal = Ranked rep ->
  In row (selected rep) ->
  ~ reducible row <= 0.
Proof.
  intros H Hin. apply run_inv in H. destruct H as [work H].
  apply rank_and_select_inv in H. destruct H as (_ & _ & _ & Hsel & _).
  rewrite Hsel in Hin.
  pose proof (picked_positive (stop_test v (target rep)) (ranked rep) 0) as F.
  rewrite Forall_forall in F. apply F in Hin.
  apply positive_gt in Hin. lra.
Qed.



(** ** Witnesses of the claims about the selection *)

(** C5 on the example of the specification, goal 10: the cost script
    selects A, whose reducible amount is 50. *)
Lemma C5_witness :
  exists rep row,
    run Cost example_table 10 = Ranked rep
    /\ In row (selected rep)
    /\ ~ reducible row <= 0.
Proof.
  eexists. eexists.
  assert (E : run Cost example_table 10 = Ranked _)
    by (vm_compute; reflexivity).
  split; [exact E|]. split; [simpl; left; reflexivity|].
  apply (C5_selected_rows_are_positive Cost example_table 10 _ _ E).
  simpl. left. reflexivity.
Defined.




(** ** The ranking of the cost and hours scripts *)

(** The ranked rows of the cost and hours scripts are in non-increasing
    order of reducible amount, and of two rows with equal reducible
    amounts the one that comes first has the metric value that is not
    smaller. *)
Lemma Rework_ranked_order (cfg : Rework.config) (work : list Work)
      (goal : Q) (rep : Report) :
  Rework.rank_and_select cfg work goal = Ranked rep ->
  StronglySorted
    (fun a b => reducible b <= reducible a
                /\ (reducible a == reducible b -> metric b <= metric a))
    (ranked rep).
Proof.
  intros H. apply Rework_rank_and_select_inv in H.
  destruct H as (_ & _ & _ & -> & _).
  pose proof (sort_values_sorted [reducible; metric]
                                 (map with_reducible work)) as S.
  induction S as [|a l S IH Ha]; constructor; auto.
  eapply Forall_impl; [|exact Ha].
  simpl. intros b [H | [H [H' | [H' _]]]]; split; intros; lra.
Qed.

(** The ranked rows of the generic script are in non-increasing order of
    reducible amount, under what pandas promises of its sort. *)
Lemma TimeReduction_ranked_order (srt : list Row -> list Row)
      (work : list Work) (goal : Q) (rep : Report) :
  TimeReduction.descending_by_savings srt ->
  TimeReduction.rank_and_select srt work goal = Ranked rep ->
  StronglySorted (fun a b => reducible b <= reducible a) (ranked rep).
Proof.
  intros A H. apply TimeReduction_rank_and_select_inv in H.
  destruct H as (_ & _ & _ & -> & _). apply A.
Qed.

(** In every variant the ranked rows of a run are in non-increasing order
    of reducible amount. *)
Lemma ranked_descending (v : variant) (df : DataFrame) (goal : Q)
      (rep : Report) :
  admissible v ->
  run v df goal = Ranked rep ->
  StronglySorted (fun a b => reducible b <= reducible a) (ranked rep).
Proof.
  intros A H. apply run_inv in H. destruct H as [work H].
  destruct v; simpl in A, H;
    [ apply Rework_ranked_order in H
    | apply Rework_ranked_order in H
    | exact (TimeReduction_ranked_order _ _ _ _ A H) ];
    (eapply StronglySorted_weaken; [|exact H]); simpl; tauto.
Qed.

(** In the cost and hours scripts, of two ranked rows with equal
    reducible amounts the one that comes first has the metric value that
    is not smaller. *)
Lemma ranked_tie_break (v : variant) (df : DataFrame) (goal : Q)
      (rep : Report) :
  two_keys v ->
  run v df goal = Ranked rep ->
  StronglySorted
    (fun a b => reducible a == reducible b -> metric b <= metric a)
    (ranked rep).
Proof.
  intros K H. apply run_inv in H. destruct H as [work H].
  destruct v; simpl in K, H; [| |tauto];
    apply Rework_ranked_order in H;
    (eapply StronglySorted_weaken; [|exact H]); simpl; tauto.
Qed.

(** C1.  The generic script sorts on the reducible amount alone: on
    [tie_table], whose two rows have the reducible amount 50, it ranks A
    (metric 50) before B (metric 100) when its sort keeps ties in the
    order of the table, where the cost script ranks B before A. *)
Theorem C1_generic_ranking_ignores_metric_on_ties :
  exists rep a b,
    run (Generic (sort_values [reducible])) tie_table 10 = Ranked rep
    /\ ranked rep = [a; b]
    /\ reducible a == reducible b
    /\ metric a < metric b
    /\ exists rep',
        run Cost tie_table 10 = Ranked rep'
        /\ map activity (ranked rep') = [Str "B"; Str "A"].
Proof.
  do 3 eexists. split; [vm_compute; reflexivity|].
  simpl. split; [reflexivity|]. split; [reflexivity|].
  split; [reflexivity|].
  eexists. split; [vm_compute; reflexivity | reflexivity].
Qed.

(** C9.  In the cost and hours scripts, which sort on the two keys
    through pandas' stable lexicographic sort, the ranking is stable: the
    rows that tie with a row [r] on the reducible amount and on the
    metric value come in the ranking in the order they have in the table.
    The generic script sorts on the reducible amount alone with the
    default [kind="quicksort"], which is not a stable sort: [sort_values]
    promises of it the descending order only
    ([TimeReduction.descending_by_savings]). *)
Theorem C9_two_key_ranking_is_stable
        (v : variant) (work : list Work) (goal : Q) (rep : Report) (r : Row) :
  two_keys v ->
  core v work goal = Ranked rep ->
  filter (ties [reducible; metric] r) (ranked rep)
  = filter (ties [reducible; metric] r) (map with_reducible work).
Proof.
  intros K H.
  assert (R : ranked rep
              = sort_values [reducible; metric] (map with_reducible work)).
  { destruct v; simpl in K, H; [| |tauto];
      apply Rework_rank_and_select_inv in H; tauto. }
  rewrite R. apply sort_values_stable.
Qed.

(** C9 on the [twins]: the cost script ranks A before B. *)
Lemma C9_witness :
  exists rep,
    two_keys Cost
    /\ core Cost twins 10 = Ranked rep
    /\ filter (ties [reducible; metric] (with_reducible (Str "A", 10, 1 # 2)))
              (ranked rep)
       = map with_reducible twins.
Proof.
  eexists.
  assert (E : core Cost twins 10 = Ranked _)
    by (vm_compute; reflexivity).
  split; [exact I|]. split; [exact E|].
  rewrite (C9_two_key_ranking_is_stable Cost twins 10 _ _ I E).
  reflexivity.
Defined.

(** ** The rate parser against the rule of the specification *)

Lemma clamp_clamp01 (v : Q) : py_max 0 (py_min 1 v) == clamp01 v.
Proof.
  unfold py_max, py_min, clamp01, Qgtb.
  destruct (Qltb v 1) eqn:L1, (Qltb v 0) eqn:L0, (Qltb 1 v) eqn:G1;
    repeat match goal with
           | H : Qltb _ _ = true |- _ => apply Qltb_lt in H
           | H : Qltb _ _ = false |- _ => apply Qltb_ge in H
           end;
    try lra;
    try (destruct (Qltb 0 v) eqn:G0;
         [apply Qltb_lt in G0 | apply Qltb_ge in G0]; lra);
    try (destruct (Qltb 0 1) eqn:G0;
         [apply Qltb_lt in G0 | apply Qltb_ge in G0]; lra).
Qed.

(** The parser of the cost and hours scripts is the rule. *)
Lemma parse_rate_refines_reference (x : cell) :
  exists q, Rework.parse_rate x = Ok q /\ q == reference_parse x.
Proof.
  unfold reference_parse, reference_rate.
  destruct x as [|v|s]; unfold Rework.parse_rate, extract;
    cbv beta iota zeta delta [isna].
  - eexists. split; [reflexivity | lra].
  - eexists. split; [reflexivity | apply clamp_clamp01].
  - destruct (strip_chars (list_ascii_of_string s)) as [|c t] eqn:S.
    { eexists. split; [reflexivity | reflexivity]. }
    destruct (re_search rate_pattern (c :: t)) as [m|] eqn:R.
    2:{ eexists. split; [reflexivity | reflexivity]. }
    destruct (py_float_of_match m (re_search_sound _ _ _ R)) as [v ->].
    unfold bind. destruct (has_percent (c :: t));
      (eexists; split; [reflexivity | apply clamp_clamp01]).
Qed.

(** The values the specification lists, in the cost and hours scripts. *)
Lemma parse_rate_examples :
  returns (Rework.parse_rate (Str "20%")) (2 # 10)
  /\ returns (Rework.parse_rate (Num 20)) (2 # 10)
  /\ returns (Rework.parse_rate (Str "20")) (2 # 10)
  /\ returns (Rework.parse_rate (Num (2 # 10))) (2 # 10)
  /\ returns (Rework.parse_rate NaN) 0
  /\ returns (Rework.parse_rate (Str "")) 0
  /\ returns (Rework.parse_rate (Str "abc")) 0
  /\ returns (Rework.parse_rate (Num 150)) 1
  /\ returns (Rework.parse_rate (Num (-5))) 0.
Proof. repeat split. Qed.

(** In the range where no clamp is needed the parser of the generic
    script gives the same values. *)
Lemma parse_automation_rate_examples :
  returns (TimeReduction.parse_automation_rate (Str "20%")) (2 # 10)
  /\ returns (TimeReduction.parse_automation_rate (Num 20)) (2 # 10)
  /\ returns (TimeReduction.parse_automation_rate (Str "20")) (2 # 10)
  /\ returns (TimeReduction.parse_automation_rate (Num (2 # 10))) (2 # 10)
  /\ returns (TimeReduction.parse_automation_rate NaN) 0.
Proof. repeat split. Qed.

(** C2.  The parser of the generic script does not clamp: 150 gives 1.5
    and not 1.0, -5 gives -5 and not 0.0, and ["250%"] gives 2.5, where
    the parser of the cost and hours scripts gives 1, 0 and 1. *)
Theorem C2_generic_rate_is_not_clamped :
  returns (TimeReduction.parse_automation_rate (Num 150)) (3 # 2)
  /\ returns (TimeReduction.parse_automation_rate (Num (-5))) (-5)
  /\ returns (TimeReduction.parse_automation_rate (Str "250%")) (5 # 2)
  /\ returns (Rework.parse_rate (Num 150)) 1
  /\ returns (Rework.parse_rate (Num (-5))) 0
  /\ returns (Rework.parse_rate (Str "250%")) 1.
Proof. repeat split. Qed.

(** A metric cell that is no number counts as 0. *)
Lemma metric_default (x : cell) :
  to_numeric_coerce x = None -> fillna 0 (to_numeric_coerce x) = 0.
Proof. now intros ->. Qed.

Lemma metric_default_example :
  fillna 0 (to_numeric_coerce (Str "abc")) = 0
  /\ fillna 0 (to_numeric_coerce NaN) = 0
  /\ fillna 0 (to_numeric_coerce (Str "12.5")) = 125 # 10.
Proof. repeat split. Qed.

(** C3.  In the generic script a rate cell that holds text which is no
    number raises [ValueError], which nothing catches: the run ends
    there, with status 1.  The cost script reads the cell as 0 and ranks
    the table. *)
Theorem C3_generic_aborts_on_unparseable_rate :
  TimeReduction.parse_automation_rate (Str "abc") = Raise ValueError
  /\ (forall srt goal,
         run (Generic srt) bad_rate_table goal = Uncaught ValueError
         /\ exit_code (Generic srt) (Uncaught ValueError) = 1%Z)
  /\ exists rep,
      run Cost bad_rate_table 10 = Ranked rep
      /\ map rate (ranked rep) = [1; 0].
Proof.
  split; [reflexivity|]. split.
  - intros srt goal. split; reflexivity.
  - eexists. split; [vm_compute; reflexivity | reflexivity].
Qed.

(** ** The test that ends the walk *)

(** In the cost and hours scripts the walk goes on exactly while
    [cum + 1e-9 >= target] is false: the test has failed after every
    selected row but the last, and it holds after the last unless the
    positive rows are exhausted. *)
Lemma Rework_walk_stops_on_test (cfg : Rework.config) (work : list Work)
      (goal : Q) (rep : Report) :
  Rework.rank_and_select cfg work goal = Ranked rep ->
  (forall p q, selected rep = p ++ q -> p <> [] -> q <> [] ->
               running 0 p + Rework.tolerance < target rep)
  /\ (selected rep <> filter positive (ranked rep) ->
      target rep <= cum rep + Rework.tolerance).
Proof.
  intros H. apply Rework_rank_and_select_inv in H.
  destruct H as (_ & _ & _ & _ & Hsel & Hcum). split.
  - intros p q E Hp Hq. rewrite Hsel in E.
    apply Qgeb_lt. exact (picked_continue _ _ _ p q E Hp Hq).
  - intros N. rewrite Hcum. apply Qgeb_ge. rewrite Hsel in N |- *.
    exact (picked_stopped _ _ _ N).
Qed.

(** C4.  The walk of the generic script has no tolerance: on
    [near_miss_table] the first row brings the running total to 0.5,
    within 1e-9 of the target 0.5000000002; the cost script stops there,
    the generic script goes on and selects the second row too. *)
Theorem C4_generic_walk_has_no_tolerance :
  exists repC repG first,
    run Cost near_miss_table near_miss_goal = Ranked repC
    /\ run (Generic (sort_values [reducible])) near_miss_table near_miss_goal
       = Ranked repG
    /\ target repC == target repG
    /\ selected repC = [first]
    /\ target repG <= reducible first + Rework.tolerance
    /\ exists second, selected repG = [first; second].
Proof.
  do 3 eexists. split; [vm_compute; reflexivity|].
  split; [vm_compute; reflexivity|]. simpl.
  split; [reflexivity|]. split; [reflexivity|].
  split; [discriminate | eexists; reflexivity].
Qed.

(** ** The early exits *)

(** In the cost and hours scripts a total that is zero or negative ends
    the run before any ranking, on the message of the script and with
    status 0. *)
Lemma Rework_nonpositive_total (cfg : Rework.config) (work : list Work)
      (goal : Q) :
  sum (map work_metric work) <= 0 ->
  Rework.rank_and_select cfg work goal
  = NothingToReduce (Rework.zero_message cfg)
  /\ Rework.exit_status (Rework.rank_and_select cfg work goal) = 0%Z.
Proof.
  intros H. apply Qleb_le in H. unfold Rework.rank_and_select.
  rewrite H. split; reflexivity.
Qed.

(** In the generic script only a total equal to zero does. *)
Lemma TimeReduction_zero_total (srt : list Row -> list Row)
      (work : list Work) (goal : Q) :
  sum (map work_metric work) == 0 <->
  TimeReduction.rank_and_select srt work goal
  = NothingToReduce "Total execution time is 0. Nothing to reduce.".
Proof.
  unfold TimeReduction.rank_and_select.
  destruct (Qeq_bool (sum (map work_metric work)) 0) eqn:E.
  - apply Qeq_bool_iff in E. tauto.
  - apply Qeq_bool_neq_iff in E.
    destruct (select_walk _ _ _ _). split; [tauto | discriminate].
Qed.

Lemma sum_from_nonnegative (l : list Q) (c : Q) :
  Forall (fun q => 0 <= q) l -> c <= fold_left Qplus l c.
Proof.
  intros F. revert c. induction F as [|q l Hq _ IH]; intros c; simpl.
  - lra.
  - specialize (IH (c + q)). lra.
Qed.

(** On a table whose metric values are all non-negative a total that is
    not positive is zero, and the generic script ends early as the other
    two do. *)
Lemma TimeReduction_nonpositive_total (srt : list Row -> list Row)
      (work : list Work) (goal : Q) :
  Forall (fun w => 0 <= work_metric w) work ->
  sum (map work_metric work) <= 0 ->
  TimeReduction.rank_and_select srt work goal
  = NothingToReduce "Total execution time is 0. Nothing to reduce.".
Proof.
  intros F H. apply TimeReduction_zero_total.
  assert (G : 0 <= sum (map work_metric work)).
  { apply sum_from_nonnegative. apply Forall_map. exact F. }
  lra.
Qed.

(** C7.  The generic script ends early only on a total equal to zero: on
    [negative_total_table], whose total is -6, it ranks the rows and
    selects B, where the cost script prints that there is nothing to
    reduce and ends with status 0. *)
Theorem C7_generic_ranks_on_negative_total :
  exists rep,
    run (Generic (sort_values [reducible])) negative_total_table 10
    = Ranked rep
    /\ total rep == -6
    /\ map activity (ranked rep) = [Str "B"; Str "A"]
    /\ map activity (selected rep) = [Str "B"]
    /\ run Cost negative_total_table 10
       = NothingToReduce "Total rework cost is 0. Nothing to reduce.".
Proof.
  eexists. split; [vm_compute; reflexivity|]. simpl.
  repeat split.
Qed.

(** When a logical column cannot be resolved, the cost and hours scripts
    report every unresolved column with the columns of the file, rank
    nothing, and end with status 2; otherwise they report none. *)
Lemma Rework_missing_columns (cfg : Rework.config) (df : DataFrame)
      (goal : Q) :
  (unresolved cfg df <> [] ->
   Rework.main cfg df goal = MissingColumns (unresolved cfg df) (columns df)
   /\ Rework.exit_status (Rework.main cfg df goal) = 2%Z)
  /\ (unresolved cfg df = [] ->
      forall missing found,
        Rework.main cfg df goal <> MissingColumns missing found).
Proof.
  unfold unresolved, Rework.main.
  destruct (Rework.find_col df ["value"; "activity"; "activity_name"; "name"]);
    destruct (Rework.find_col df (Rework.metric_candidates cfg));
    destruct (Rework.find_col df
                ["automation_rate"; "automation rate"; "automation"]);
    simpl; split; try tauto; try discriminate.
  intros _ missing found.
  destruct (mapM _ _); [|discriminate].
  unfold Rework.rank_and_select. destruct (Qleb _ 0); [discriminate|].
  destruct (select_walk _ _ _ _). discriminate.
Qed.

(** C8.  The generic script leaves its loop over the required columns at
    the first one that is missing: on [foreign_table], which has none of
    the three, it reports [value] alone, where the cost script reports
    the three.  Both end with a status that is not 0. *)
Theorem C8_generic_reports_first_missing_column_only :
  forall srt goal,
    run (Generic srt) foreign_table goal
    = MissingColumns ["value"] ["id"; "cost"]
    /\ TimeReduction.in_columns "total_duration" ["id"; "cost"] = false
    /\ TimeReduction.in_columns "automation_rate" ["id"; "cost"] = false
    /\ exit_code (Generic srt) (run (Generic srt) foreign_table goal) = 1%Z
    /\ run Cost foreign_table goal
       = MissingColumns
           ["value/activity"; "Total rework cost"; "automation_rate"]
           ["Id"; "Cost"]
    /\ exit_code Cost (run Cost foreign_table goal) = 2%Z.
Proof.
  intros srt goal. repeat split.
Qed.

(** * Further properties *)

(** ** [find_col] *)

Lemma dict_get_set_same (d : Rework.dict) (k v : string) :
  Rework.dict_get (Rework.dict_set d k v) k = Some v.
Proof.
  induction d as [|[k' v'] d IH]; simpl.
  - now rewrite String.eqb_refl.
  - destruct (String.eqb k k') eqn:E; simpl; rewrite E; auto.
Qed.

Lemma dict_get_set_other (d : Rework.dict) (k k' v : string) :
  k <> k' ->
  Rework.dict_get (Rework.dict_set d k v) k' = Rework.dict_get d k'.
Proof.
  intros N. induction d as [|[k0 v0] d IH]; simpl.
  - destruct (String.eqb k' k) eqn:E; [|reflexivity].
    apply String.eqb_eq in E. congruence.
  - destruct (String.eqb k k0) eqn:E; simpl.
    + apply String.eqb_eq in E. subst k0.
      destruct (String.eqb k' k) eqn:E'; [|reflexivity].
      apply String.eqb_eq in E'. congruence.
    + now rewrite IH.
Qed.

Lemma find_append {A : Type} (f : A -> bool) (l l' : list A) :
  find f (l ++ l')
  = match find f l with
    | Some x => Some x
    | None => find f l'
    end.
Proof.
  induction l as [|x l IH]; simpl; [reflexivity|].
  destruct (f x); auto.
Qed.

(** The dictionary of [find_col] holds, under a normalised name, the last
    column of that normalised name. *)
Lemma lookup_last (cols : list string) (d : Rework.dict) (k : string) :
  Rework.dict_get
    (fold_left (fun d c => Rework.dict_set d (lower (strip c)) c) cols d) k
  = match find (fun c => String.eqb (norm c) k) (rev cols) with
    | Some c => Some c
    | None => Rework.dict_get d k
    end.
Proof.
  revert d. induction cols as [|c cols IH]; intros d; simpl; [reflexivity|].
  rewrite IH, find_append.
  destruct (find (fun c0 => String.eqb (norm c0) k) (rev cols));
    [reflexivity|].
  simpl. unfold norm at 1. destruct (String.eqb (lower (strip c)) k) eqn:E.
  - apply String.eqb_eq in E. subst k. apply dict_get_set_same.
  - apply dict_get_set_other. intros H. rewrite H, String.eqb_refl in E.
    discriminate.
Qed.

(** [find_col] is the search, candidate by candidate, for the last column
    of the candidate's normalised name. *)
Lemma find_col_unfold (df : DataFrame) (cands : list string) :
  Rework.find_col df cands
  = match cands with
    | [] => None
    | cand :: cands' =>
        match find (fun c => String.eqb (norm c) (norm cand))
                   (rev (columns df)) with
        | Some c => Some c
        | None => Rework.find_col df cands'
        end
    end.
Proof.
  destruct cands as [|cand cands']; [reflexivity|].
  unfold Rework.find_col at 1. rewrite lookup_last.
  change (lower (strip cand)) with (norm cand).
  destruct (find _ (rev (columns df))); reflexivity.
Qed.

(** X1.  A column [find_col] returns is a column of the file, and its
    name, stripped and put in lower case, is that of one of the
    candidates. *)
Theorem X1_find_col_sound (df : DataFrame) (cands : list string) (c : string) :
  Rework.find_col df cands = Some c ->
  In c (columns df) /\ exists cand, In cand cands /\ norm c = norm cand.
Proof.
  induction cands as [|cand cands IH]; rewrite find_col_unfold;
    [discriminate|].
  destruct (find _ (rev (columns df))) as [c'|] eqn:F.
  - intros [= ->]. apply find_some in F. destruct F as [Hin E].
    apply String.eqb_eq in E. split.
    + now apply in_rev.
    + exists cand. split; [now left | exact E].
  - intros H. destruct (IH H) as (Hin & cand' & Hc & E).
    split; [exact Hin|]. exists cand'. split; [now right | exact E].
Qed.

(** X1 on the example table: the candidate written in capitals finds the
    column [Total rework cost]. *)
Lemma X1_witness :
  Rework.find_col example_table ["rework cost"; "TOTAL REWORK COST "]
  = Some "Total rework cost"
  /\ In "Total rework cost" (columns example_table)
  /\ exists cand,
      In cand ["rework cost"; "TOTAL REWORK COST "]
      /\ norm "Total rework cost" = norm cand.
Proof.
  split; [reflexivity|].
  apply (X1_find_col_sound example_table
           ["rework cost"; "TOTAL REWORK COST "] "Total rework cost").
  reflexivity.
Defined.

(** X2.  [find_col] returns [None] exactly when no column of the file has,
    once stripped and put in lower case, the name of a candidate. *)
Theorem X2_find_col_none_iff (df : DataFrame) (cands : list string) :
  Rework.find_col df cands = None
  <-> forall cand c, In cand cands -> In c (columns df) -> norm c <> norm cand.
Proof.
  induction cands as [|cand cands IH]; rewrite find_col_unfold.
  - split; [intros _ cand c [] | reflexivity].
  - destruct (find _ (rev (columns df))) as [c'|] eqn:F.
    + split; [discriminate|]. intros H. exfalso.
      apply find_some in F. destruct F as [Hin E].
      apply String.eqb_eq in E.
      apply (H cand c'); [now left | now apply in_rev | exact E].
    + rewrite IH. split.
      * intros H cand' c [<- | Hc] Hin; [|now apply H].
        intros E. apply in_rev in Hin.
        pose proof (find_none _ _ F c Hin) as N. simpl in N.
        rewrite E, String.eqb_refl in N. discriminate.
      * intros H cand' c Hc. apply H. now right.
Qed.

(** X3.  The candidates are tried in their order: when no column matches
    the candidates before [cand] and some column matches [cand], the
    column returned is one that matches [cand], whatever the candidates
    after it. *)
Theorem X3_find_col_first_candidate
        (df : DataFrame) (pre post : list string) (cand : string) :
  (forall p c, In p pre -> In c (columns df) -> norm c <> norm p) ->
  (exists c, In c (columns df) /\ norm c = norm cand) ->
  exists c, Rework.find_col df (pre ++ cand :: post) = Some c
            /\ norm c = norm cand.
Proof.
  intros Hpre (c0 & Hin0 & E0).
  induction pre as [|p pre IH]; simpl app; rewrite find_col_unfold.
  - destruct (find _ (rev (columns df))) as [c|] eqn:F.
    + exists c. split; [reflexivity|].
      apply find_some in F. now apply String.eqb_eq.
    + exfalso. apply in_rev in Hin0.
      pose proof (find_none _ _ F c0 Hin0) as N. simpl in N.
      rewrite E0, String.eqb_refl in N. discriminate.
  - destruct (find _ (rev (columns df))) as [c|] eqn:F.
    + exfalso. apply find_some in F. destruct F as [Hin E].
      apply String.eqb_eq in E.
      apply (Hpre p c); [now left | now apply in_rev | exact E].
    + apply IH. intros p' c Hp. apply Hpre. now right.
Qed.

(** X3 on the example table: no column is called [name], so the candidate
    [ Value] decides. *)
Lemma X3_witness :
  (forall p c, In p ["name"] -> In c (columns example_table) ->
               norm c <> norm p)
  /\ (exists c, In c (columns example_table) /\ norm c = norm " Value")
  /\ exists c, Rework.find_col example_table (["name"] ++ " Value" :: ["activity"])
               = Some c
               /\ norm c = norm " Value".
Proof.
  assert (P : forall p c, In p ["name"] -> In c (columns example_table) ->
                          norm c <> norm p).
  { intros p c [<- | []] Hin.
    simpl in Hin.
    repeat (destruct Hin as [<- | Hin]; [vm_compute; discriminate|]).
    destruct Hin. }
  assert (E : exists c, In c (columns example_table)
                        /\ norm c = norm " Value").
  { exists "value". split; [simpl; auto | reflexivity]. }
  split; [exact P|]. split; [exact E|].
  exact (X3_find_col_first_candidate example_table ["name"] ["activity"]
           " Value" P E).
Defined.

(** X4.  When several columns share a normalised name, [find_col] returns
    the last of them: the dictionary it builds keeps one column per
    normalised name, the one met last. *)
Theorem X4_find_col_last_duplicate
        (df : DataFrame) (before after rest : list string) (c cand : string) :
  columns df = before ++ c :: after ->
  norm c = norm cand ->
  (forall c', In c' after -> norm c' <> norm cand) ->
  Rework.find_col df (cand :: rest) = Some c.
Proof.
  intros Hcols E Hafter. rewrite find_col_unfold, Hcols.
  rewrite rev_app_distr. simpl. rewrite <- app_assoc, find_append.
  destruct (find _ (rev after)) as [c'|] eqn:F.
  - exfalso. apply find_some in F. destruct F as [Hin E'].
    apply String.eqb_eq in E'. apply in_rev in Hin. exact (Hafter c' Hin E').
  - simpl. now rewrite E, String.eqb_refl.
Qed.

(** X4 on a header with [Value] and [value ]: the second is returned. *)
Lemma X4_witness :
  columns doubled_header = ["Value"] ++ "value " :: ["Rework_Cost"; "Automation"]
  /\ norm "value " = norm "value"
  /\ (forall c', In c' ["Rework_Cost"; "Automation"] -> norm c' <> norm "value")
  /\ Rework.find_col doubled_header ("value" :: ["activity"]) = Some "value ".
Proof.
  assert (A : forall c', In c' ["Rework_Cost"; "Automation"] ->
                         norm c' <> norm "value").
  { intros c' Hin. simpl in Hin.
    repeat (destruct Hin as [<- | Hin]; [vm_compute; discriminate|]).
    destruct Hin. }
  split; [reflexivity|]. split; [reflexivity|]. split; [exact A|].
  exact (X4_find_col_last_duplicate doubled_header ["Value"]
           ["Rework_Cost"; "Automation"] ["activity"] "value " "value"
           eq_refl eq_refl A).
Defined.

(** ** [parse_rate] *)

(** X5.  Whatever the cell, [parse_rate] raises nothing and returns a
    number between 0 and 1. *)
Theorem X5_parse_rate_returns_fraction (x : cell) :
  exists q, Rework.parse_rate x = Ok q /\ 0 <= q <= 1.
Proof.
  destruct (parse_rate_total x) as [q E].
  exists q. split; [exact E | exact (parse_rate_range x q E)].
Qed.

(** X6.  On a number [parse_rate] is the clamp of the number read as a
    fraction when it is at most 1 and as a percentage when it is above 1:
    0 below 0, the number itself from 0 to 1, its hundredth from 1 to
    100, and 1 from 100 on. *)
Theorem X6_parse_rate_of_number (v : Q) :
  (v <= 0 -> returns (Rework.parse_rate (Num v)) 0)
  /\ (0 <= v <= 1 -> returns (Rework.parse_rate (Num v)) v)
  /\ (1 < v <= 100 -> returns (Rework.parse_rate (Num v)) (v / 100))
  /\ (100 <= v -> returns (Rework.parse_rate (Num v)) 1).
Proof.
  unfold Rework.parse_rate, returns. cbv beta iota zeta delta [isna].
  assert (D : v / 100 == v * (1 # 100)) by (unfold Qdiv; reflexivity).
  repeat split; intros H;
    (destruct (Qgtb v 1) eqn:G;
     [apply Qgtb_gt in G | apply Qgtb_le in G]);
    rewrite clamp_clamp01; unfold clamp01;
    repeat match goal with
           | |- context [Qltb ?a ?b] =>
               let L := fresh "L" in
               destruct (Qltb a b) eqn:L;
               [apply Qltb_lt in L | apply Qltb_ge in L]
           end;
    lra.
Qed.

(** X6 at 20, read as 20 percent. *)
Lemma X6_witness :
  (1 < 20 <= 100) /\ returns (Rework.parse_rate (Num 20)) (20 / 100).
Proof.
  assert (H : 1 < 20 <= 100) by (split; [reflexivity | discriminate]).
  split; [exact H|].
  exact (proj1 (proj2 (proj2 (X6_parse_rate_of_number 20))) H).
Defined.

(** The matcher on a run of characters of a class. *)
Lemma re_star_not_headed (cls : ascii -> bool)
      (k : list ascii -> option (list ascii)) (rest : list ascii) :
  not_headed cls rest -> re_star cls k rest = k rest.
Proof.
  destruct rest as [|c r]; simpl; [reflexivity|]. now intros ->.
Qed.

(** The greedy run takes the whole run when the rest of the pattern then
    succeeds. *)
Lemma re_star_run (cls : ascii -> bool)
      (k : list ascii -> option (list ascii)) (ds rest m : list ascii) :
  Forall (fun c => cls c = true) ds -> not_headed cls rest ->
  k rest = Some m ->
  re_star cls k (ds ++ rest) = Some (ds ++ m).
Proof.
  intros F N K. induction F as [|c ds C _ IH]; simpl.
  - now rewrite re_star_not_headed.
  - now rewrite C, IH.
Qed.

Lemma is_digit_not_dot (c : ascii) : is_digit c = true -> is_dot c = false.
Proof.
  intros H. unfold is_dot. destruct (Ascii.eqb c ".") eqn:E; [|reflexivity].
  apply Ascii.eqb_eq in E. subst c. discriminate.
Qed.

Lemma is_digit_not_sign (c : ascii) : is_digit c = true -> is_sign c = false.
Proof.
  intros H. destruct (is_sign c) eqn:E; [|reflexivity].
  destruct (is_sign_cases c E); subst c; discriminate.
Qed.

Lemma is_digit_not_percent (c : ascii) :
  is_digit c = true -> Ascii.eqb "%" c = false.
Proof.
  intros H. destruct (Ascii.eqb "%" c) eqn:E; [|reflexivity].
  apply Ascii.eqb_eq in E. subst c. discriminate.
Qed.

(** A run of digits that nothing of a number follows is given back one
    digit, which the last item of the rate pattern takes. *)
Lemma re_star_digits_only (ds tail : list ascii) :
  Forall (fun c => is_digit c = true) ds -> ds <> [] ->
  not_headed is_digit tail -> not_headed is_dot tail ->
  re_star is_digit (re_match [(is_dot, Opt); (is_digit, Plus)]) (ds ++ tail)
  = Some ds.
Proof.
  intros F N Hd Hp.
  assert (K : re_match [(is_dot, Opt); (is_digit, Plus)] tail = None).
  { destruct tail as [|c r]; simpl; [reflexivity|].
    simpl in Hd, Hp. now rewrite Hp, Hd. }
  assert (K1 : forall c, is_digit c = true ->
                 re_match [(is_dot, Opt); (is_digit, Plus)] (c :: tail)
                 = Some [c]).
  { intros c C. simpl. rewrite (is_digit_not_dot c C), C.
    now rewrite (re_star_not_headed _ _ tail Hd). }
  set (k := re_match [(is_dot, Opt); (is_digit, Plus)]) in *.
  induction F as [|c ds C F IH]; [tauto|].
  simpl app. simpl re_star. rewrite C.
  destruct ds as [|c' ds'].
  - simpl app. rewrite (re_star_not_headed _ _ tail Hd), K.
    now apply K1.
  - rewrite IH by discriminate. reflexivity.
Qed.

(** A match at the head of the text is the one [re_search] returns. *)
Lemma re_search_head (re : pattern) (s m : list ascii) :
  re_match re s = Some m -> re_search re s = Some m.
Proof. intros H. destruct s; cbn [re_search]; now rewrite H. Qed.

(** The rate pattern matches a plain decimal text whole, at the head of
    the text, when nothing or a percent sign follows it. *)
Lemma re_search_plain (t tail : list ascii) :
  plain_decimal t -> tail = [] \/ tail = ["%"%char] ->
  re_search rate_pattern (t ++ tail) = Some t.
Proof.
  intros (ds1 & ds2 & F1 & N1 & F2 & Ht) Htail.
  assert (Hd : not_headed is_digit tail)
    by (destruct Htail; subst tail; reflexivity).
  assert (Hp : not_headed is_dot tail)
    by (destruct Htail; subst tail; reflexivity).
  assert (M : re_match rate_pattern (t ++ tail) = Some t).
  { destruct ds1 as [|d ds1']; [tauto|].
    inversion F1 as [|? ? D F1']; subst.
    assert (S : forall r, re_match rate_pattern ((d :: ds1') ++ r)
                          = re_star is_digit
                              (re_match [(is_dot, Opt); (is_digit, Plus)])
                              ((d :: ds1') ++ r)).
    { intros r. simpl. now rewrite (is_digit_not_sign d D), D. }
    destruct Ht as [-> | [N2 ->]].
    - rewrite S. now apply re_star_digits_only.
    - rewrite <- app_assoc. rewrite S.
      apply re_star_run; [exact F1 | reflexivity |].
      destruct ds2 as [|d2 ds2']; [tauto|].
      inversion F2 as [|? ? D2 F2']; subst.
      simpl. rewrite D2.
      rewrite (re_star_run is_digit _ ds2' tail [] F2' Hd eq_refl).
      simpl. now rewrite app_nil_r. }
  now apply re_search_head.
Qed.

Lemma plain_decimal_chars (t : list ascii) :
  plain_decimal t ->
  t <> []
  /\ Forall (fun c => is_space c = false) t
  /\ has_percent t = false.
Proof.
  intros (ds1 & ds2 & F1 & N1 & F2 & Ht).
  assert (G : forall ds, Forall (fun c => is_digit c = true) ds ->
                Forall (fun c => is_space c = false) ds
                /\ has_percent ds = false).
  { induction 1 as [|c ds C _ [IH1 IH2]]; [split; [constructor | reflexivity]|].
    split; [constructor; [now apply is_digit_not_space | exact IH1]|].
    change (has_percent (c :: ds))
      with (Ascii.eqb "%" c || has_percent ds)%bool.
    now rewrite (is_digit_not_percent c C). }
  destruct (G ds1 F1) as [S1 P1], (G ds2 F2) as [S2 P2].
  destruct Ht as [-> | [N2 ->]]; [now repeat split|].
  split; [destruct ds1; [tauto | discriminate]|]. split.
  - apply Forall_app. split; [exact S1|]. now constructor.
  - unfold has_percent in *. rewrite existsb_app, P1. simpl. exact P2.
Qed.

(** X7.  A rate written as a plain decimal text is read as the same
    number is: [parse_rate] gives the text and the number [float] reads
    in it the same result; and with a percent sign after it the text
    gives the hundredth of the number, clamped. *)
Theorem X7_parse_rate_of_plain_text (t : list ascii) :
  plain_decimal t ->
  exists v,
    py_float t = Ok v
    /\ Rework.parse_rate (Str (string_of_list_ascii t))
       = Rework.parse_rate (Num v)
    /\ Rework.parse_rate (Str (string_of_list_ascii (t ++ ["%"%char])))
       = Ok (py_max 0 (py_min 1 (v / 100))).
Proof.
  intros P.
  destruct (plain_decimal_chars t P) as (N & S & NP).
  pose proof (re_search_plain t [] P (or_introl eq_refl)) as R0.
  pose proof (re_search_plain t ["%"%char] P (or_intror eq_refl)) as R1.
  rewrite app_nil_r in R0.
  destruct (py_float_of_match t (re_search_sound _ _ _ R0)) as [v V].
  exists v. split; [exact V|].
  unfold Rework.parse_rate. cbv beta iota zeta delta [isna].
  rewrite !list_ascii_of_string_of_list_ascii. split.
  - rewrite (strip_chars_id t S), R0, V, NP.
    destruct t; [tauto | reflexivity].
  - assert (S' : Forall (fun c => is_space c = false) (t ++ ["%"%char])).
    { apply Forall_app. split; [exact S | now constructor]. }
    rewrite (strip_chars_id _ S'), R1, V.
    assert (HP : has_percent (t ++ ["%"%char]) = true).
    { unfold has_percent. rewrite existsb_app. simpl. apply orb_true_r. }
    rewrite HP. destruct t; [tauto | reflexivity].
Qed.

(** X7 on the text [12.5]. *)
Lemma X7_witness :
  plain_decimal (list_ascii_of_string "12.5")
  /\ exists v,
      py_float (list_ascii_of_string "12.5") = Ok v
      /\ Rework.parse_rate
           (Str (string_of_list_ascii (list_ascii_of_string "12.5")))
         = Rework.parse_rate (Num v)
      /\ Rework.parse_rate
           (Str (string_of_list_ascii
                   (list_ascii_of_string "12.5" ++ ["%"%char])))
         = Ok (py_max 0 (py_min 1 (v / 100))).
Proof.
  assert (P : plain_decimal (list_ascii_of_string "12.5")).
  { exists (list_ascii_of_string "12"), (list_ascii_of_string "5").
    split; [repeat constructor|]. split; [discriminate|].
    split; [repeat constructor|]. right. split; [discriminate | reflexivity]. }
  split; [exact P|].
  exact (X7_parse_rate_of_plain_text (list_ascii_of_string "12.5") P).
Defined.

(** ** The working table and the totals *)

Lemma mapM_length {A B : Type} (f : A -> result B) (l : list A)
      (ys : list B) :
  mapM f l = Ok ys -> List.length ys = List.length l.
Proof.
  revert ys. induction l as [|x l IH]; simpl; intros ys.
  - now intros [= <-].
  - destruct (f x) as [y|]; simpl; [|discriminate].
    destruct (mapM f l) as [ys'|]; simpl; [|discriminate].
    intros [= <-]. simpl. now rewrite (IH ys' eq_refl).
Qed.

Lemma mapM_Forall {A B : Type} (f : A -> result B) (P : B -> Prop)
      (l : list A) (ys : list B) :
  (forall x y, In x l -> f x = Ok y -> P y) ->
  mapM f l = Ok ys -> Forall P ys.
Proof.
  revert ys. induction l as [|x l IH]; simpl; intros ys H.
  - intros [= <-]. constructor.
  - destruct (f x) as [y|] eqn:E; simpl; [|discriminate].
    destruct (mapM f l) as [ys'|] eqn:M; simpl; [|discriminate].
    intros [= <-]. constructor; [apply (H x); auto|].
    apply IH; [|reflexivity]. intros x' y' Hin. apply H. now right.
Qed.

(** What a run that ranks has read: a working table with one line per
    line of the file, the same for every goal, whose rates, in the cost
    and hours scripts, lie between 0 and 1. *)
Lemma run_load (v : variant) (df : DataFrame) (goal : Q) (rep : Report) :
  run v df goal = Ranked rep ->
  exists work,
    core v work goal = Ranked rep
    /\ List.length work = List.length (rows df)
    /\ (forall goal', run v df goal' = core v work goal')
    /\ (two_keys v -> Forall (fun w : Work => 0 <= snd w <= 1) work).
Proof.
  destruct v as [| |srt]; simpl; unfold Rework.main, TimeReduction.main.
  - destruct (Rework.find_col df _); [|discriminate].
    destruct (Rework.find_col df _); [|discriminate].
    destruct (Rework.find_col df _); [|discriminate].
    destruct (mapM _ (rows df)) as [work|] eqn:M; [|discriminate].
    intros H. exists work. split; [exact H|].
    split; [exact (mapM_length _ _ _ M)|]. split; [reflexivity|].
    intros _. refine (mapM_Forall _ _ _ _ _ M). intros line w _.
    destruct (Rework.parse_rate _) as [r|] eqn:E; simpl; [|discriminate].
    intros [= <-]. simpl. exact (parse_rate_range _ _ E).
  - destruct (Rework.find_col df _); [|discriminate].
    destruct (Rework.find_col df _); [|discriminate].
    destruct (Rework.find_col df _); [|discriminate].
    destruct (mapM _ (rows df)) as [work|] eqn:M; [|discriminate].
    intros H. exists work. split; [exact H|].
    split; [exact (mapM_length _ _ _ M)|]. split; [reflexivity|].
    intros _. refine (mapM_Forall _ _ _ _ _ M). intros line w _.
    destruct (Rework.parse_rate _) as [r|] eqn:E; simpl; [|discriminate].
    intros [= <-]. simpl. exact (parse_rate_range _ _ E).
  - destruct (find _ _); [discriminate|].
    destruct (mapM _ (rows df)) as [work|] eqn:M; [|discriminate].
    intros H. exists work. split; [exact H|].
    split; [exact (mapM_length _ _ _ M)|]. split; [reflexivity | tauto].
Qed.

(** The ranking is a rearrangement of the working table. *)
Lemma core_permutation (v : variant) (work : list Work) (goal : Q)
      (rep : Report) :
  admissible v ->
  core v work goal = Ranked rep ->
  Permutation (map with_reducible work) (ranked rep).
Proof.
  destruct v as [| |srt]; simpl; intros A H.
  - apply Rework_rank_and_select_inv in H.
    destruct H as (_ & _ & _ & -> & _). apply sort_values_perm.
  - apply Rework_rank_and_select_inv in H.
    destruct H as (_ & _ & _ & -> & _). apply sort_values_perm.
  - apply TimeReduction_rank_and_select_inv in H.
    destruct H as (_ & _ & _ & -> & _). apply A.
Qed.

Lemma mapM_map {A B C : Type} (f : A -> result B) (g : B -> C) (h : A -> C)
      (l : list A) (ys : list B) :
  (forall x y, f x = Ok y -> g y = h x) ->
  mapM f l = Ok ys -> map g ys = map h l.
Proof.
  intros F. revert ys. induction l as [|x l IH]; simpl; intros ys.
  - now intros [= <-].
  - destruct (f x) as [y|] eqn:E; simpl; [|discriminate].
    destruct (mapM f l) as [ys'|]; simpl; [|discriminate].
    intros [= <-]. simpl. now rewrite (F x y E), (IH ys' eq_refl).
Qed.

(** The activity cells of the ranked rows of the cost and hours scripts
    are those of the activity column, rearranged. *)
Lemma Rework_ranked_activities (cfg : Rework.config) (df : DataFrame)
      (goal : Q) (rep : Report) :
  Rework.main cfg df goal = Ranked rep ->
  exists col,
    Rework.find_col df ["value"; "activity"; "activity_name"; "name"]
    = Some col
    /\ Permutation (map (at_col (columns df) col) (rows df))
                   (map activity (ranked rep)).
Proof.
  unfold Rework.main.
  destruct (Rework.find_col df _) as [col|]; [|discriminate].
  destruct (Rework.find_col df _) as [col_metric|]; [|discriminate].
  destruct (Rework.find_col df _) as [col_rate|]; [|discriminate].
  match goal with |- context [mapM ?f (rows df)] => set (load := f) end.
  assert (F : forall line w,
             load line = Ok w ->
             activity (with_reducible w) = at_col (columns df) col line).
  { intros line w. unfold load.
    destruct (Rework.parse_rate _); simpl; [|discriminate].
    now intros [= <-]. }
  destruct (mapM load (rows df)) as [work|] eqn:M; [|discriminate].
  intros H. exists col. split; [reflexivity|].
  apply Rework_rank_and_select_inv in H.
  destruct H as (_ & _ & _ & -> & _).
  rewrite <- (Permutation_map activity
                (sort_values_perm [reducible; metric]
                                  (map with_reducible work))).
  rewrite map_map.
  rewrite <- (mapM_map load (fun w => activity (with_reducible w))
                       (at_col (columns df) col) (rows df) work F M).
  reflexivity.
Qed.

(** X8.  In the cost and hours scripts the ranked table has exactly one
    row for each line of the file: the activity cells of the ranked rows
    are those of the activity column of the file, rearranged, so that
    ranking drops no line and repeats none. *)
Theorem X8_one_ranked_row_per_line
        (v : variant) (df : DataFrame) (goal : Q) (rep : Report) :
  two_keys v ->
  run v df goal = Ranked rep ->
  exists col,
    Rework.find_col df ["value"; "activity"; "activity_name"; "name"]
    = Some col
    /\ Permutation (map (at_col (columns df) col) (rows df))
                   (map activity (ranked rep)).
Proof.
  destruct v; simpl; [intros _ | intros _ | tauto];
    apply Rework_ranked_activities.
Qed.

(** X8 on the example table: the ranked rows are those of A, B and C. *)
Lemma X8_witness :
  two_keys Cost
  /\ exists rep col,
      run Cost example_table 10 = Ranked rep
      /\ Rework.find_col example_table
                         ["value"; "activity"; "activity_name"; "name"]
         = Some col
      /\ Permutation (map (at_col (columns example_table) col)
                          (rows example_table))
                     (map activity (ranked rep)).
Proof.
  split; [exact I|]. eexists.
  assert (E : run Cost example_table 10 = Ranked _)
    by (vm_compute; reflexivity).
  destruct (X8_one_ranked_row_per_line Cost example_table 10 _ I E)
    as (col & F & P).
  exists col. split; [exact E|]. split; [exact F | exact P].
Defined.

Lemma cum_sum_selected
        (v : variant) (df : DataFrame) (goal : Q) (rep : Report) :
  run v df goal = Ranked rep ->
  cum rep = sum (map reducible (selected rep)).
Proof.
  intros H. apply run_inv in H. destruct H as [work H].
  apply rank_and_select_inv in H. destruct H as (_ & _ & _ & _ & ->).
  apply running_sum.
Qed.

(** X11.  In every variant the cumulative amount a run reports is the sum
    of the reducible amounts of the selected rows. *)
Theorem X11_cum_is_sum_of_selected
        (v : variant) (df : DataFrame) (goal : Q) (rep : Report) :
  run v df goal = Ranked rep ->
  cum rep = sum (map reducible (selected rep)).
Proof. exact (cum_sum_selected v df goal rep). Qed.

(** X11 on the example table, goal 20: A and B, 100 together. *)
Lemma X11_witness :
  exists rep,
    run Hours example_table 20 = Ranked rep
    /\ cum rep = sum (map reducible (selected rep)).
Proof.
  eexists.
  assert (E : run Hours example_table 20 = Ranked _)
    by (vm_compute; reflexivity).
  split; [exact E|].
  exact (X11_cum_is_sum_of_selected Hours example_table 20 _ E).
Defined.

(** ** The selection *)

Lemma selected_top
        (v : variant) (df : DataFrame) (goal : Q) (rep : Report) :
  run v df goal = Ranked rep ->
  exists rest, filter positive (ranked rep) = selected rep ++ rest.
Proof.
  intros H. apply run_inv in H. destruct H as [work H].
  apply rank_and_select_inv in H. destruct H as (_ & _ & _ & -> & _).
  apply picked_prefix.
Qed.

(** X12.  In every variant the selected rows are the first of the ranked
    rows with a positive reducible amount, in ranked order: what follows
    them in that list is what the walk did not reach. *)
Theorem X12_selected_is_top_of_ranking
        (v : variant) (df : DataFrame) (goal : Q) (rep : Report) :
  run v df goal = Ranked rep ->
  exists rest, filter positive (ranked rep) = selected rep ++ rest.
Proof. exact (selected_top v df goal rep). Qed.

(** X12 on the example table, goal 20: A and B selected, C left. *)
Lemma X12_witness :
  exists rep rest,
    run Cost example_table 20 = Ranked rep
    /\ filter positive (ranked rep) = selected rep ++ rest.
Proof.
  eexists.
  assert (E : run Cost example_table 20 = Ranked _)
    by (vm_compute; reflexivity).
  destruct (X12_selected_is_top_of_ranking Cost example_table 20 _ E)
    as [rest R].
  exists rest. split; [exact E | exact R].
Defined.

(** X13.  In every variant, when the walk ends before the last row with a
    positive amount, the goal is met: the cumulative amount, with the
    tolerance of the variant (1e-9 in the cost and hours scripts, none in
    the generic one), is at least the target. *)
Theorem X13_goal_met_unless_exhausted
        (v : variant) (df : DataFrame) (goal : Q) (rep : Report) :
  run v df goal = Ranked rep ->
  selected rep <> filter positive (ranked rep) ->
  target rep <= cum rep + tolerance_of v.
Proof.
  intros H N. apply run_inv in H. destruct H as [work H].
  apply rank_and_select_inv in H. destruct H as (_ & _ & _ & Hsel & Hcum).
  rewrite Hsel in N. apply picked_stopped in N. rewrite <- Hsel, <- Hcum in N.
  destruct v; simpl in *; unfold Rework.stop, TimeReduction.stop in N;
    apply Qgeb_ge in N; lra.
Qed.

(** X13 on the example table, goal 10, in the generic script: A alone
    is selected and brings 50 for a target of 35. *)
Lemma X13_witness :
  exists rep,
    run (Generic (sort_values [reducible])) example_table 10 = Ranked rep
    /\ selected rep <> filter positive (ranked rep)
    /\ target rep <= cum rep + tolerance_of (Generic (sort_values [reducible])).
Proof.
  eexists.
  assert (E : run (Generic (sort_values [reducible])) example_table 10
              = Ranked _) by (vm_compute; reflexivity).
  match type of E with _ = Ranked ?rep =>
    assert (N : selected rep <> filter positive (ranked rep))
      by (vm_compute; discriminate)
  end.
  split; [exact E|]. split; [exact N|].
  exact (X13_goal_met_unless_exhausted _ example_table 10 _ E N).
Defined.





Lemma filter_positive_none (l : list Row) :
  (forall row, In row l -> reducible row <= 0) -> filter positive l = [].
Proof.
  induction l as [|row l IH]; simpl; intros Z; [reflexivity|].
  assert (P : positive row = false).
  { unfold positive. rewrite negb_false_iff. apply Qleb_le, Z. now left. }
  rewrite P. apply IH. intros r Hr. apply Z. now right.
Qed.

(** X15.  In every variant, when no ranked row has a positive reducible
    amount, nothing is selected and the cumulative amount is 0, whatever
    the goal. *)
Theorem X15_nothing_to_select
        (v : variant) (df : DataFrame) (goal : Q) (rep : Report) :
  run v df goal = Ranked rep ->
  (forall row, In row (ranked rep) -> reducible row <= 0) ->
  selected rep = [] /\ cum rep = 0.
Proof.
  intros H Z. apply run_inv in H. destruct H as [work H].
  apply rank_and_select_inv in H. destruct H as (_ & _ & _ & Hsel & Hcum).
  pose proof (filter_positive_none _ Z) as F.
  destruct (picked_prefix (stop_test v (target rep)) (ranked rep) 0)
    as [rest E].
  rewrite F, <- Hsel in E. symmetry in E. apply app_eq_nil in E.
  destruct E as [E _]. split; [exact E|]. rewrite Hcum, E. reflexivity.
Qed.

(** X15 on a table whose rates are 0 and a text that holds no number. *)
Lemma X15_witness :
  exists rep,
    run Cost (table [("A", 100, Num 0); ("B", 50, Str "none")]) 5 = Ranked rep
    /\ (forall row, In row (ranked rep) -> reducible row <= 0)
    /\ selected rep = [] /\ cum rep = 0.
Proof.
  eexists.
  assert (E : run Cost (table [("A", 100, Num 0); ("B", 50, Str "none")]) 5
              = Ranked _) by (vm_compute; reflexivity).
  match type of E with _ = Ranked ?rep =>
    assert (Z : forall row, In row (ranked rep) -> reducible row <= 0)
  end.
  { simpl. intros row [<- | [<- | []]]; discriminate. }
  split; [exact E|]. split; [exact Z|].
  exact (X15_nothing_to_select Cost _ 5 _ E Z).
Defined.

(** ** Bounds in the cost and hours scripts *)

Lemma ranked_rate_fraction
        (v : variant) (df : DataFrame) (goal : Q) (rep : Report) (row : Row) :
  two_keys v ->
  run v df goal = Ranked rep ->
  In row (ranked rep) ->
  0 <= rate row <= 1.
Proof.
  intros K H Hin.
  destruct (run_load v df goal rep H) as (work & C & _ & _ & F).
  assert (A : admissible v) by (destruct v; simpl in *; tauto).
  apply (Permutation_in _ (Permutation_sym (core_permutation _ _ _ _ A C)))
    in Hin.
  apply in_map_iff in Hin. destruct Hin as ([[a m] r] & <- & Hw).
  specialize (F K). rewrite Forall_forall in F. exact (F _ Hw).
Qed.

(** X16.  In the cost and hours scripts the rate of every ranked row lies
    between 0 and 1: no cell of the rate column, whatever it holds,
    brings a rate outside this range into the table. *)
Theorem X16_ranked_rates_are_fractions
        (v : variant) (df : DataFrame) (goal : Q) (rep : Report) (row : Row) :
  two_keys v ->
  run v df goal = Ranked rep ->
  In row (ranked rep) ->
  0 <= rate row <= 1.
Proof. exact (ranked_rate_fraction v df goal rep row). Qed.

(** X16 on the table with the rate cell [abc], read as 0. *)
Lemma X16_witness :
  two_keys Cost
  /\ exists rep row,
      run Cost bad_rate_table 10 = Ranked rep
      /\ In row (ranked rep)
      /\ 0 <= rate row <= 1.
Proof.
  split; [exact I|]. eexists. eexists.
  assert (E : run Cost bad_rate_table 10 = Ranked _)
    by (vm_compute; reflexivity).
  split; [exact E|].
  match type of E with _ = Ranked ?rep =>
    assert (Hin : In {| activity := Str "A"; metric := 100; rate := 0;
                        reducible := 0 |} (ranked rep))
      by (simpl; right; left; reflexivity)
  end.
  split; [exact Hin|].
  exact (X16_ranked_rates_are_fractions Cost bad_rate_table 10 _ _ I E Hin).
Defined.

(** ** How a run ends *)

(** X18.  No run of the cost and hours scripts ends on an exception: the
    file may hold anything in its cells. *)
Theorem X18_cost_and_hours_never_raise
        (v : variant) (df : DataFrame) (goal : Q) (e : exn) :
  two_keys v ->
  run v df goal <> Uncaught e.
Proof.
  destruct v; simpl; [intros _ | intros _ | tauto];
    apply Rework_main_never_raises.
Qed.

(** X18 on the table with the rate cell [abc]. *)
Lemma X18_witness :
  two_keys Cost /\ run Cost bad_rate_table 10 <> Uncaught ValueError.
Proof.
  split; [exact I|].
  exact (X18_cost_and_hours_never_raise Cost bad_rate_table 10 ValueError I).
Defined.

(** A logical column is resolved exactly when the header has one of its
    names. *)
Lemma find_col_headed (df : DataFrame) (cands : list string) :
  headed df cands
  = match Rework.find_col df cands with
    | Some _ => true
    | None => false
    end.
Proof.
  induction cands as [|cand cands IH]; rewrite find_col_unfold;
    [reflexivity|].
  unfold headed in *. cbn [existsb]. rewrite IH.
  destruct (find _ (rev (columns df))) as [c|] eqn:F.
  - apply find_some in F. destruct F as [Hin E]. apply in_rev in Hin.
    assert (X : existsb (fun c => String.eqb (norm c) (norm cand))
                        (columns df) = true)
      by (apply existsb_exists; eauto).
    now rewrite X.
  - assert (X : existsb (fun c => String.eqb (norm c) (norm cand))
                        (columns df) = false).
    { destruct (existsb _ (columns df)) eqn:E; [|reflexivity].
      apply existsb_exists in E. destruct E as (c & Hin & E).
      apply in_rev in Hin. rewrite (find_none _ _ F c Hin) in E.
      discriminate. }
    now rewrite X.
Qed.

Lemma unresolved_not_headed (cfg : Rework.config) (df : DataFrame) :
  unresolved cfg df
  = map fst (filter (fun lc => negb (headed df (snd lc)))
                    (logical_columns cfg)).
Proof.
  unfold unresolved, logical_columns. cbn [filter snd].
  rewrite !find_col_headed.
  destruct (Rework.find_col df ["value"; "activity"; "activity_name"; "name"]);
    destruct (Rework.find_col df (Rework.metric_candidates cfg));
    destruct (Rework.find_col df
                ["automation_rate"; "automation rate"; "automation"]);
    reflexivity.
Qed.

(** X19.  The cost and hours scripts end on the report of missing columns
    exactly when, for one of the three logical columns, no name of the
    header is, once stripped and put in lower case, one of the names
    accepted for it; the report then names every such column, once and in
    the order activity, metric, rate, and lists the header of the file as
    it is. *)
Theorem X19_missing_columns_report
        (cfg : Rework.config) (df : DataFrame) (goal : Q)
        (missing found : list string) :
  Rework.main cfg df goal = MissingColumns missing found
  <-> missing <> []
      /\ missing = map fst (filter (fun lc => negb (headed df (snd lc)))
                                   (logical_columns cfg))
      /\ found = columns df.
Proof.
  rewrite <- unresolved_not_headed.
  destruct (Rework_missing_columns cfg df goal) as [Some_ None_].
  split.
  - intros H. destruct (unresolved cfg df) as [|u us] eqn:U.
    + exfalso. exact (None_ eq_refl missing found H).
    + assert (N : u :: us <> []) by discriminate.
      destruct (Some_ N) as [E _]. rewrite E in H. injection H as <- <-.
      auto.
  - intros (N & -> & ->). exact (proj1 (Some_ N)).
Qed.

Lemma existsb_eqb_In (col : string) (cols : list string) :
  TimeReduction.in_columns col cols = true <-> In col cols.
Proof.
  unfold TimeReduction.in_columns. rewrite existsb_exists. split.
  - intros (c & Hin & E). apply String.eqb_eq in E. now subst c.
  - intros Hin. exists col. split; [exact Hin | apply String.eqb_refl].
Qed.

Lemma find_first {A : Type} (f : A -> bool) (l : list A) (x : A) :
  find f l = Some x
  <-> exists pre post,
      l = pre ++ x :: post /\ f x = true
      /\ forall p, In p pre -> f p = false.
Proof.
  split.
  - induction l as [|a l IH]; simpl; [discriminate|].
    destruct (f a) eqn:E.
    + intros [= <-]. exists [], l. repeat split; auto. intros p [].
    + intros H. destruct (IH H) as (pre & post & -> & Fx & Hpre).
      exists (a :: pre), post. repeat split; auto.
      intros p [<- | Hp]; auto.
  - intros (pre & post & -> & Fx & Hpre).
    induction pre as [|a pre IH]; simpl.
    + now rewrite Fx.
    + rewrite (Hpre a (or_introl eq_refl)). apply IH.
      intros p Hp. apply Hpre. now right.
Qed.

(** X20.  The generic script ends on the report of a missing column
    exactly when one of [value], [total_duration], [automation_rate] is
    not among the names of the header, stripped and put in lower case;
    the report then names one column, the first of the three that is
    absent, and lists the header in that normalised form. *)
Theorem X20_generic_missing_column_report
        (srt : list Row -> list Row) (df : DataFrame) (goal : Q)
        (missing found : list string) :
  TimeReduction.main srt df goal = MissingColumns missing found
  <-> exists pre col post,
      required_cols = pre ++ col :: post
      /\ (forall p, In p pre -> In p (map norm (columns df)))
      /\ ~ In col (map norm (columns df))
      /\ missing = [col]
      /\ found = map norm (columns df).
Proof.
  unfold TimeReduction.main.
  change (map (fun c => lower (strip c)) (columns df))
    with (map norm (columns df)).
  change ["value"; "total_duration"; "automation_rate"] with required_cols.
  set (header := map norm (columns df)).
  destruct (find (fun col => negb (TimeReduction.in_columns col header))
                 required_cols) as [col|] eqn:F.
  - apply find_first in F. destruct F as (pre & post & R & Fc & Hpre).
    assert (Nc : ~ In col header).
    { rewrite <- existsb_eqb_In. apply negb_true_iff in Fc.
      now rewrite Fc. }
    assert (Pp : forall p, In p pre -> In p header).
    { intros p Hp. apply existsb_eqb_In. specialize (Hpre p Hp).
      now apply negb_false_iff in Hpre. }
    split.
    + intros [= <- <-]. exists pre, col, post. auto.
    + intros (pre' & col' & post' & R' & Pp' & Nc' & -> & ->).
      assert (F' : find (fun c => negb (TimeReduction.in_columns c header))
                        required_cols = Some col').
      { apply find_first. exists pre', post'. split; [exact R'|]. split.
        - apply negb_true_iff.
          destruct (TimeReduction.in_columns col' header) eqn:E;
            [|reflexivity].
          apply existsb_eqb_In in E. tauto.
        - intros p Hp. apply negb_false_iff, existsb_eqb_In, Pp', Hp. }
      assert (F0 : find (fun c => negb (TimeReduction.in_columns c header))
                        required_cols = Some col).
      { apply find_first. exists pre, post. auto. }
      congruence.
  - split.
    + destruct (mapM _ (rows df)); [|discriminate].
      unfold TimeReduction.rank_and_select.
      destruct (Qeq_bool _ 0); [discriminate|].
      destruct (select_walk _ _ _ _). discriminate.
    + intros (pre & col & post & R & _ & Nc & _). exfalso.
      assert (Hin : In col required_cols)
        by (rewrite R; apply in_or_app; right; now left).
      pose proof (find_none _ _ F col Hin) as N. simpl in N.
      apply negb_false_iff, existsb_eqb_In in N. tauto.
Qed.

(** An exception that escapes [mapM f l] is that of the first element
    on which [f] raises. *)
Lemma mapM_raise_first {A B : Type} (f : A -> result B) (l : list A)
      (e : exn) :
  mapM f l = Raise e ->
  exists pre x post,
    l = pre ++ x :: post
    /\ (forall p, In p pre -> exists y, f p = Ok y)
    /\ f x = Raise e.
Proof.
  induction l as [|x l IH]; simpl; [discriminate|].
  destruct (f x) as [y|e'] eqn:E; simpl.
  - destruct (mapM f l) as [ys|e'] eqn:M; simpl; [discriminate|].
    intros [= ->]. destruct (IH eq_refl) as (pre & x' & post & -> & Hpre & Hx).
    exists (x :: pre), x', post. split; [reflexivity|]. split; [|exact Hx].
    intros p [<- | Hp]; [eauto | now apply Hpre].
  - intros [= ->]. exists [], x, l. split; [reflexivity|].
    split; [intros p [] | exact E].
Qed.

(** X21.  On a file whose header names are distinct once stripped and put
    in lower case, the generic script ends on an uncaught exception only
    when the header has the three required columns and
    [parse_automation_rate] raises on a rate cell: the exception is the
    one raised on the first line whose rate cell cannot be read, the
    lines before it having been read. *)
Theorem X21_generic_raises_only_on_bad_rate_cell
        (srt : list Row -> list Row) (df : DataFrame) (goal : Q) (e : exn) :
  NoDup (map norm (columns df)) ->
  TimeReduction.main srt df goal = Uncaught e ->
  (forall col, In col required_cols -> In col (map norm (columns df)))
  /\ exists pre line post,
      rows df = pre ++ line :: post
      /\ (forall p, In p pre ->
            exists q,
              TimeReduction.parse_automation_rate
                (at_col (map norm (columns df)) "automation_rate" p)
              = Ok q)
      /\ TimeReduction.parse_automation_rate
           (at_col (map norm (columns df)) "automation_rate" line)
         = Raise e.
Proof.
  intros _. unfold TimeReduction.main.
  change (map (fun c => lower (strip c)) (columns df))
    with (map norm (columns df)).
  change ["value"; "total_duration"; "automation_rate"] with required_cols.
  set (header := map norm (columns df)).
  destruct (find (fun col => negb (TimeReduction.in_columns col header))
                 required_cols) as [col|] eqn:F; [discriminate|].
  assert (All : forall col, In col required_cols -> In col header).
  { intros col Hin. pose proof (find_none _ _ F col Hin) as N. simpl in N.
    now apply negb_false_iff, existsb_eqb_In in N. }
  match goal with |- context [mapM ?f (rows df)] => set (load := f) end.
  destruct (mapM load (rows df)) as [work|e'] eqn:M.
  - unfold TimeReduction.rank_and_select.
    destruct (Qeq_bool _ 0); [discriminate|].
    destruct (select_walk _ _ _ _). discriminate.
  - intros [= ->]. split; [exact All|].
    destruct (mapM_raise_first load (rows df) e M)
      as (pre & line & post & R & Hpre & Hline).
    exists pre, line, post. split; [exact R|]. split.
    + intros p Hp. destruct (Hpre p Hp) as [y Hy]. unfold load in Hy.
      destruct (TimeReduction.parse_automation_rate _) as [q|];
        [eauto | discriminate].
    + unfold load in Hline.
      destruct (TimeReduction.parse_automation_rate _) as [q|e'];
        simpl in Hline; [discriminate | congruence].
Qed.

(** X21 on the table with the rate cell [abc], on its first line. *)
Lemma X21_witness :
  NoDup (map norm (columns bad_rate_table))
  /\ TimeReduction.main (sort_values [reducible]) bad_rate_table 10
     = Uncaught ValueError
  /\ (forall col, In col required_cols ->
                  In col (map norm (columns bad_rate_table)))
  /\ exists pre line post,
      rows bad_rate_table = pre ++ line :: post
      /\ (forall p, In p pre ->
            exists q,
              TimeReduction.parse_automation_rate
                (at_col (map norm (columns bad_rate_table))
                        "automation_rate" p)
              = Ok q)
      /\ TimeReduction.parse_automation_rate
           (at_col (map norm (columns bad_rate_table))
                   "automation_rate" line)
         = Raise ValueError.
Proof.
  assert (D : NoDup (map norm (columns bad_rate_table))).
  { vm_compute.
    repeat (constructor; [simpl; intuition discriminate|]). constructor. }
  assert (E : TimeReduction.main (sort_values [reducible]) bad_rate_table 10
              = Uncaught ValueError) by reflexivity.
  split; [exact D|]. split; [exact E|].
  exact (X21_generic_raises_only_on_bad_rate_cell
           (sort_values [reducible]) bad_rate_table 10 ValueError D E).
Defined.

(** ** [parse_automation_rate] *)

(** X22.  On a number from 0 to 100 [parse_automation_rate] returns a
    fraction between 0 and 1, the one [parse_rate] returns: the two
    parsers differ only where [parse_rate] clamps. *)
Theorem X22_parsers_agree_on_percentages (v : Q) :
  0 <= v <= 100 ->
  exists q,
    TimeReduction.parse_automation_rate (Num v) = Ok q
    /\ 0 <= q <= 1
    /\ returns (Rework.parse_rate (Num v)) q.
Proof.
  intros H.
  unfold TimeReduction.parse_automation_rate, Rework.parse_rate, returns.
  cbv beta iota zeta delta [isna].
  assert (D : v / 100 == v * (1 # 100)) by (unfold Qdiv; reflexivity).
  destruct (Qgtb v 1) eqn:G;
    [apply Qgtb_gt in G | apply Qgtb_le in G];
    (eexists; split; [reflexivity|]);
    rewrite clamp_clamp01; unfold clamp01;
    repeat match goal with
           | |- context [Qltb ?a ?b] =>
               let L := fresh "L" in
               destruct (Qltb a b) eqn:L;
               [apply Qltb_lt in L | apply Qltb_ge in L]
           end;
    (split; lra).
Qed.

(** X22 at 20. *)
Lemma X22_witness :
  0 <= 20 <= 100
  /\ exists q,
      TimeReduction.parse_automation_rate (Num 20) = Ok q
      /\ 0 <= q <= 1
      /\ returns (Rework.parse_rate (Num 20)) q.
Proof.
  assert (H : 0 <= 20 <= 100) by (split; discriminate).
  split; [exact H|]. exact (X22_parsers_agree_on_percentages 20 H).
Defined.

Lemma drop_percent_id (t : list ascii) :
  has_percent t = false -> drop_percent t = t.
Proof.
  unfold has_percent, drop_percent.
  induction t as [|c t IH]; cbn [existsb filter]; [reflexivity|].
  destruct (Ascii.eqb "%" c); cbn [orb negb]; [discriminate|].
  intros H. now rewrite IH.
Qed.

(** X23.  [parse_automation_rate] reads a rate written as a plain decimal
    text as it reads the same number; with a percent sign after it the
    text gives the hundredth of the number, also when the number is at
    most 1. *)
Theorem X23_parse_automation_rate_of_plain_text (t : list ascii) :
  plain_decimal t ->
  exists v,
    py_float t = Ok v
    /\ TimeReduction.parse_automation_rate (Str (string_of_list_ascii t))
       = TimeReduction.parse_automation_rate (Num v)
    /\ TimeReduction.parse_automation_rate
         (Str (string_of_list_ascii (t ++ ["%"%char])))
       = Ok (v / 100).
Proof.
  intros P.
  destruct (plain_decimal_chars t P) as (N & S & NP).
  pose proof (re_search_plain t [] P (or_introl eq_refl)) as R0.
  rewrite app_nil_r in R0.
  destruct (py_float_of_match t (re_search_sound _ _ _ R0)) as [v V].
  exists v. split; [exact V|].
  unfold TimeReduction.parse_automation_rate.
  cbv beta iota zeta delta [isna].
  rewrite !list_ascii_of_string_of_list_ascii. split.
  - rewrite (strip_chars_id t S), NP, V. reflexivity.
  - assert (S' : Forall (fun c => is_space c = false) (t ++ ["%"%char])).
    { apply Forall_app. split; [exact S | now constructor]. }
    assert (HP : has_percent (t ++ ["%"%char]) = true).
    { unfold has_percent. rewrite existsb_app. simpl. apply orb_true_r. }
    assert (DP : drop_percent (t ++ ["%"%char]) = t).
    { unfold drop_percent. rewrite filter_app. simpl.
      rewrite app_nil_r. now apply drop_percent_id. }
    rewrite (strip_chars_id _ S'), HP, DP, V. reflexivity.
Qed.

(** X23 on the text [0.5]. *)
Lemma X23_witness :
  plain_decimal (list_ascii_of_string "0.5")
  /\ exists v,
      py_float (list_ascii_of_string "0.5") = Ok v
      /\ TimeReduction.parse_automation_rate
           (Str (string_of_list_ascii (list_ascii_of_string "0.5")))
         = TimeReduction.parse_automation_rate (Num v)
      /\ TimeReduction.parse_automation_rate
           (Str (string_of_list_ascii
                   (list_ascii_of_string "0.5" ++ ["%"%char])))
         = Ok (v / 100).
Proof.
  assert (P : plain_decimal (list_ascii_of_string "0.5")).
  { exists (list_ascii_of_string "0"), (list_ascii_of_string "5").
    split; [repeat constructor|]. split; [discriminate|].
    split; [repeat constructor|]. right. split; [discriminate | reflexivity]. }
  split; [exact P|].
  exact (X23_parse_automation_rate_of_plain_text
           (list_ascii_of_string "0.5") P).
Defined.

(** ** The order of the ranking *)

(** X24.  In the cost and hours scripts the ranked rows come in
    non-increasing order of reducible amount: no row is ranked before a
    row with a greater reducible amount. *)
Theorem X24_ranking_is_descending
        (v : variant) (df : DataFrame) (goal : Q) (rep : Report) :
  two_keys v ->
  run v df goal = Ranked rep ->
  StronglySorted (fun a b => reducible b <= reducible a) (ranked rep).
Proof.
  intros K H. apply run_inv in H. destruct H as [work H].
  destruct v; simpl in K, H; [| |tauto];
    apply Rework_ranked_order in H;
    (eapply StronglySorted_weaken; [|exact H]); simpl; tauto.
Qed.

(** X24 on the example table, in the cost script: 50, 50, 20. *)
Lemma X24_witness :
  two_keys Cost
  /\ exists rep,
      run Cost example_table 10 = Ranked rep
      /\ StronglySorted (fun a b => reducible b <= reducible a) (ranked rep).
Proof.
  split; [exact I|]. eexists.
  assert (E : run Cost example_table 10 = Ranked _)
    by (vm_compute; reflexivity).
  split; [exact E|].
  exact (X24_ranking_is_descending Cost example_table 10 _ I E).
Defined.

(** X25.  In the cost and hours scripts, of two ranked rows with equal
    reducible amounts the one ranked first has the metric value that is
    not smaller. *)
Theorem X25_ties_ranked_by_metric
        (v : variant) (df : DataFrame) (goal : Q) (rep : Report) :
  two_keys v ->
  run v df goal = Ranked rep ->
  StronglySorted
    (fun a b => reducible a == reducible b -> metric b <= metric a)
    (ranked rep).
Proof. exact (ranked_tie_break v df goal rep). Qed.

(** X25 on the table of the two rows that tie at 50. *)
Lemma X25_witness :
  two_keys Cost
  /\ exists rep,
      run Cost tie_table 10 = Ranked rep
      /\ StronglySorted
           (fun a b => reducible a == reducible b -> metric b <= metric a)
           (ranked rep).
Proof.
  split; [exact I|]. eexists.
  assert (E : run Cost tie_table 10 = Ranked _) by (vm_compute; reflexivity).
  split; [exact E|].
  exact (X25_ties_ranked_by_metric Cost tie_table 10 _ I E).
Defined.
